(** * Alpaca client and connector: a shallow embedding

    The development follows [src/alpaca/client.py] and
    [src/ingestion/connectors/alpaca_connector.py] statement by statement.

    - Python values that can be "either a result or an exception" are
      values of [result]; [try: ... except Exception as e: log; raise]
      is [log_and_reraise], which hands the exception on unchanged.
    - Calls of [logger] have no effect on any value and are left out.
    - A [date] is its proleptic Gregorian ordinal, as [date.toordinal()]
      gives it; a [datetime] is a date and the microseconds since
      midnight.  Time zones play no role in the code under study.
    - The brokerage SDK ([self.api]) is a parameter of the development.
    - Line 68 of the connector ends in a stray colon; the statement is read
      as the assignment it spells, [end_date = datetime.now().date()]. *)

From Stdlib Require Import ZArith List String Ascii Lia Bool.
From stdpp Require Import base gmap strings list fin_maps.

(** ** Exceptions and results *)

Module Py.

Inductive exn : Type :=
  | AttributeError (cls attr : string)
  | UnboundLocalError (name : string)
  | OverflowError
  | TypeError (msg : string)
  | ValueError (msg : string)
  | KeyError (key : string)
  | RemoteError (detail : string).

Inductive result (A : Type) : Type :=
  | Ok (a : A)
  | Raise (e : exn).

Arguments Ok {A} a.
Arguments Raise {A} e.

Definition bind {A B : Type} (m : result A) (k : A -> result B) : result B :=
  match m with
  | Ok a => k a
  | Raise e => Raise e
  end.

(** [try: body / except Exception as e: logger.error(...); raise] *)
Definition log_and_reraise {A : Type} (body : result A) : result A :=
  match body with
  | Ok a => Ok a
  | Raise e => Raise e
  end.

Definition raises {A : Type} (m : result A) : Prop := exists e, m = Raise e.
Definition returns {A : Type} (m : result A) : Prop := exists a, m = Ok a.

End Py.

Import Py.

Notation "'do' x <- m ; k" := (bind m (fun x => k))
  (at level 10, x name, m at level 100, k at level 200).

(** ** Dates, as the standard library's [datetime] module has them *)

Module Calendar.

Local Open Scope Z_scope.

Definition MINYEAR : Z := 1.
Definition MAXYEAR : Z := 9999.

(** [date.max.toordinal()], the ordinal of 9999-12-31. *)
Definition MAXORDINAL : Z := 3652059.

Definition date : Type := Z.

Definition valid_date (d : date) : Prop := 1 <= d <= MAXORDINAL.

Definition is_leap (year : Z) : bool :=
  (year mod 4 =? 0) && (negb (year mod 100 =? 0) || (year mod 400 =? 0)).

Definition days_before_year (year : Z) : Z :=
  let y := year - 1 in y * 365 + y / 4 - y / 100 + y / 400.

Definition DAYS_IN_MONTH : list Z :=
  [-1; 31; 28; 31; 30; 31; 30; 31; 31; 30; 31; 30; 31].

Definition DAYS_BEFORE_MONTH : list Z :=
  [-1; 0; 31; 59; 90; 120; 151; 181; 212; 243; 273; 304; 334].

Definition days_in_month (year month : Z) : Z :=
  if (month =? 2) && is_leap year then 29
  else nth (Z.to_nat month) DAYS_IN_MONTH 0.

Definition days_before_month (year month : Z) : Z :=
  nth (Z.to_nat month) DAYS_BEFORE_MONTH 0
  + (if (2 <? month) && is_leap year then 1 else 0).

Definition ymd2ord (year month day : Z) : date :=
  days_before_year year + days_before_month year month + day.

(** [date(year, month, day)]: the constructor checks its fields. *)
Definition mk_date (year month day : Z) : result date :=
  if negb ((MINYEAR <=? year) && (year <=? MAXYEAR))
  then Raise (ValueError "year is out of range")
  else if negb ((1 <=? month) && (month <=? 12))
  then Raise (ValueError "month must be in 1..12")
  else if negb ((1 <=? day) && (day <=? days_in_month year month))
  then Raise (ValueError "day is out of range for month")
  else Ok (ymd2ord year month day).

(** [d + timedelta(days=n)]: the sum is formed on ordinals and refused
    outside [1, MAXORDINAL]. *)
Definition date_add_days (d : date) (n : Z) : result date :=
  let o := d + n in
  if (0 <? o) && (o <=? MAXORDINAL) then Ok o else Raise OverflowError.

Record datetime : Type := mk_datetime {
  dt_date : date;
  dt_us : Z   (* microseconds since midnight *)
}.

Definition US_PER_SECOND : Z := 1000000.
Definition US_PER_DAY : Z := 86400 * US_PER_SECOND.

(** [datetime.min.time()] and [datetime.max.time()]. *)
Definition time_min : Z := 0.
Definition time_max : Z := US_PER_DAY - 1.

(** [datetime.combine(d, t)] *)
Definition combine (d : date) (t : Z) : datetime := mk_datetime d t.

(** [dt.date()] *)
Definition date_of (dt : datetime) : date := dt_date dt.

(** [dt - timedelta(days=n)] *)
Definition datetime_sub_days (dt : datetime) (n : Z) : result datetime :=
  do d <- date_add_days (dt_date dt) (- n);
  Ok (mk_datetime d (dt_us dt)).

(** [dt.strftime('%Y-%m-%dT%H:%M:%SZ')]: the date and the whole seconds
    of the day; the microseconds are dropped. *)
Definition strftime_seconds (dt : datetime) : date * Z :=
  (dt_date dt, dt_us dt / US_PER_SECOND).

(** The instant that follows [dt], one microsecond later. *)
Definition next_instant (dt : datetime) : datetime :=
  if dt_us dt + 1 <? US_PER_DAY
  then mk_datetime (dt_date dt) (dt_us dt + 1)
  else mk_datetime (dt_date dt + 1) 0.

End Calendar.

Import Calendar.

(** ** ISO-8601 strings

    [datetime.fromisoformat] is modelled on the forms
    [YYYY-MM-DD], [YYYY-MM-DD?HH:MM:SS] and the latter followed by a
    [+HH:MM] or [-HH:MM] offset ([?] is any one separator character).
    Strings outside these forms are reported as [ValueError] here; none
    of the results below is about such a string. *)

Module Iso.

Local Open Scope Z_scope.

Definition digit (c : ascii) : option Z :=
  let n := Z.of_nat (nat_of_ascii c) in
  if (48 <=? n) && (n <=? 57) then Some (n - 48) else None.

Fixpoint digits (n : nat) (acc : Z) (s : string) : option (Z * string) :=
  match n with
  | O => Some (acc, s)
  | S n' =>
      match s with
      | String c s' =>
          match digit c with
          | Some d => digits n' (acc * 10 + d) s'
          | None => None
          end
      | EmptyString => None
      end
  end.

Definition expect (c : ascii) (s : string) : option string :=
  match s with
  | String c' s' => if Ascii.eqb c c' then Some s' else None
  | EmptyString => None
  end.

Definition skip_one (s : string) : option string :=
  match s with
  | String _ s' => Some s'
  | EmptyString => None
  end.

(** [s.replace('Z', '+00:00')] *)
Fixpoint replace_Z (s : string) : string :=
  match s with
  | EmptyString => EmptyString
  | String c s' =>
      if Ascii.eqb c "Z"%char
      then String "+" (String "0" (String "0" (String ":"
             (String "0" (String "0" (replace_Z s'))))))
      else String c (replace_Z s')
  end.

Definition parse_ymd (s : string) : option (Z * Z * Z * string) :=
  match digits 4 0 s with
  | Some (y, s1) =>
    match expect "-"%char s1 with
    | Some s2 =>
      match digits 2 0 s2 with
      | Some (m, s3) =>
        match expect "-"%char s3 with
        | Some s4 =>
          match digits 2 0 s4 with
          | Some (d, s5) => Some (y, m, d, s5)
          | None => None
          end
        | None => None
        end
      | None => None
      end
    | None => None
    end
  | None => None
  end.

Definition parse_hms (s : string) : option (Z * Z * Z * string) :=
  match digits 2 0 s with
  | Some (h, s1) =>
    match expect ":"%char s1 with
    | Some s2 =>
      match digits 2 0 s2 with
      | Some (m, s3) =>
        match expect ":"%char s3 with
        | Some s4 =>
          match digits 2 0 s4 with
          | Some (sec, s5) => Some (h, m, sec, s5)
          | None => None
          end
        | None => None
        end
      | None => None
      end
    | None => None
    end
  | None => None
  end.

Definition parse_offset (s : string) : bool :=
  match s with
  | EmptyString => true
  | String c s1 =>
      if Ascii.eqb c "+"%char || Ascii.eqb c "-"%char then
        match digits 2 0 s1 with
        | Some (h, s2) =>
          match expect ":"%char s2 with
          | Some s3 =>
            match digits 2 0 s3 with
            | Some (m, EmptyString) => (h <? 24) && (m <? 60)
            | _ => false
            end
          | None => false
          end
        | None => false
        end
      else false
  end.

Definition invalid (s : string) : exn :=
  ValueError ("Invalid isoformat string: " ++ s).

Definition fromisoformat (s : string) : result datetime :=
  match parse_ymd s with
  | None => Raise (invalid s)
  | Some (y, m, d, EmptyString) =>
      do dd <- mk_date y m d; Ok (combine dd time_min)
  | Some (y, m, d, rest) =>
      match skip_one rest with
      | None => Raise (invalid s)
      | Some rest1 =>
          match parse_hms rest1 with
          | None => Raise (invalid s)
          | Some (h, mi, sec, rest2) =>
              if parse_offset rest2 then
                do dd <- mk_date y m d;
                if (h <? 24) && (mi <? 60) && (sec <? 60)
                then Ok (mk_datetime dd ((h * 3600 + mi * 60 + sec) * US_PER_SECOND))
                else Raise (ValueError "time field out of range")
              else Raise (invalid s)
          end
      end
  end.

End Iso.

(** ** Tables

    Two table libraries meet in this code.  The SDK hands out pandas
    frames ([.df]), and both modules bind their table library with
    [import polars as pl] / [import polars as pd], so every
    [pl.DataFrame()] and [pd.DataFrame()] in the source builds a polars
    frame.  The facts about the two libraries that the model relies on:

    - a pandas frame has [empty], [reset_index], [copy], item access by
      name and by list of names, item assignment of a scalar, and falls
      back to a column of that name for any other attribute;
    - a polars frame has none of the attributes [empty], [reset_index],
      [column];
    - [polars.concat] has no keyword [ignore_index]. *)

Module Frame.

Section Cells.

(** 64-bit floating-point numbers are kept abstract. *)
Variable num : Type.

Inductive cell : Type :=
  | CStr (s : string)
  | CNum (x : num)
  | CTime (t : datetime)
  | CPos (i : nat).

Definition column : Type := (string * list cell)%type.

Record pandas : Type := mk_pandas {
  pd_nrows : nat;
  pd_index : list column;     (* named index levels; [] is a RangeIndex *)
  pd_columns : list column
}.

Record polars : Type := mk_polars {
  pl_columns : list column
}.

Inductive frame : Type :=
  | Pandas (df : pandas)
  | Polars (df : polars).

(** [pl.DataFrame()] and, in the connector, [pd.DataFrame()]. *)
Definition polars_DataFrame : frame := Polars (mk_polars []).

Definition names (cols : list column) : list string := map fst cols.

Definition has_name (name : string) (cols : list column) : bool :=
  existsb (String.eqb name) (names cols).

Fixpoint find_column (name : string) (cols : list column) : option (list cell) :=
  match cols with
  | [] => None
  | (n, vs) :: rest => if String.eqb name n then Some vs else find_column name rest
  end.

(** Attributes that only pandas frames have. *)
Definition as_pandas (attr : string) (f : frame) : result pandas :=
  match f with
  | Pandas df => Ok df
  | Polars _ => Raise (AttributeError "DataFrame" attr)
  end.

(** [df.empty] on a pandas frame: some axis has length 0. *)
Definition pd_empty (df : pandas) : bool :=
  (pd_nrows df =? 0)%nat || match pd_columns df with [] => true | _ => false end.

(** [f.empty] *)
Definition attr_empty (f : frame) : result bool :=
  do df <- as_pandas "empty" f; Ok (pd_empty df).

(** [df.reset_index()]: the index levels become the leading columns and
    the index becomes positional.  A RangeIndex is inserted under the name
    [index] ([level_0] when that is taken); a name already among the
    columns is refused. *)
Fixpoint insert_levels (levels cols : list column) : result (list column) :=
  match levels with
  | [] => Ok cols
  | (n, vs) :: rest =>
      do cols' <- insert_levels rest cols;
      if has_name n cols'
      then Raise (ValueError ("cannot insert " ++ n ++ ", already exists"))
      else Ok ((n, vs) :: cols')
  end.

Definition pd_reset_index (df : pandas) : result pandas :=
  let levels :=
    match pd_index df with
    | [] =>
        [(if has_name "index" (pd_columns df) then "level_0" else "index",
          map CPos (seq 0 (pd_nrows df)))]
    | lv => lv
    end in
  do cols <- insert_levels levels (pd_columns df);
  Ok (mk_pandas (pd_nrows df) [] cols).

(** A pandas [Series]: the values of one column under the frame's index. *)
Record series : Type := mk_series {
  s_index : list column;
  s_values : list cell
}.

(** [df.<attr>] for a name that is no attribute of the class: pandas
    looks for a column of that name. *)
Definition pd_getattr (attr : string) (df : pandas) : result series :=
  match find_column attr (pd_columns df) with
  | Some vs => Ok (mk_series (pd_index df) vs)
  | None => Raise (AttributeError "DataFrame" attr)
  end.

Definition is_label (label : string) (c : cell) : bool :=
  match c with
  | CStr s => String.eqb label s
  | _ => false
  end.

(** [label in s]: membership in the index of the series, not in its
    values.  A positional index holds integers only. *)
Definition series_contains (label : string) (s : series) : bool :=
  match s_index s with
  | [] => false
  | (_, vs) :: _ => existsb (is_label label) vs
  end.

(** [df[name]] *)
Definition pd_getitem (name : string) (df : pandas) : result series :=
  match find_column name (pd_columns df) with
  | Some vs => Ok (mk_series (pd_index df) vs)
  | None => Raise (KeyError name)
  end.

(** [df[[n1, n2, ...]]]: the named columns in the order asked for. *)
Fixpoint select_columns (wanted : list string) (cols : list column)
  : result (list column) :=
  match wanted with
  | [] => Ok []
  | n :: rest =>
      match find_column n cols with
      | None => Raise (KeyError n)
      | Some vs => do more <- select_columns rest cols; Ok ((n, vs) :: more)
      end
  end.

Definition pd_getitem_list (wanted : list string) (df : pandas) : result pandas :=
  do cols <- select_columns wanted (pd_columns df);
  Ok (mk_pandas (pd_nrows df) (pd_index df) cols).

(** [df.copy()] *)
Definition pd_copy (df : pandas) : pandas := df.

(** [df[name] = scalar]: the column is replaced in place when it exists
    and appended otherwise. *)
Fixpoint assign_column (name : string) (vs : list cell) (cols : list column)
  : list column :=
  match cols with
  | [] => [(name, vs)]
  | (n, old) :: rest =>
      if String.eqb name n then (n, vs) :: rest
      else (n, old) :: assign_column name vs rest
  end.

Definition pd_setitem (name : string) (v : cell) (df : pandas) : pandas :=
  mk_pandas (pd_nrows df) (pd_index df)
    (assign_column name (repeat v (pd_nrows df)) (pd_columns df)).

(** [pd.concat(frames, ignore_index=True)] with [pd] bound to polars. *)
Definition polars_concat_ignore_index (frames : list frame) : result frame :=
  Raise (TypeError "concat() got an unexpected keyword argument 'ignore_index'").

(** [s.mean()]: defined on numeric values; the arithmetic is the
    parameter [mean]. *)
Variable mean : list num -> num.

Fixpoint numbers (vs : list cell) : option (list num) :=
  match vs with
  | [] => Some []
  | CNum x :: rest =>
      match numbers rest with
      | Some xs => Some (x :: xs)
      | None => None
      end
  | _ :: _ => None
  end.

Definition series_mean (s : series) : result num :=
  match numbers (s_values s) with
  | Some xs => Ok (mean xs)
  | None => Raise (TypeError "Could not convert to numeric")
  end.

End Cells.

Arguments CStr {num} s.
Arguments CNum {num} x.
Arguments CTime {num} t.
Arguments CPos {num} i.
Arguments mk_pandas {num} _ _ _.
Arguments pd_nrows {num} _.
Arguments pd_index {num} _.
Arguments pd_columns {num} _.
Arguments mk_polars {num} _.
Arguments pl_columns {num} _.
Arguments Pandas {num} df.
Arguments Polars {num} df.
Arguments polars_DataFrame {num}.
Arguments names {num} cols.
Arguments has_name {num} name cols.
Arguments find_column {num} name cols.
Arguments as_pandas {num} attr f.
Arguments pd_empty {num} df.
Arguments attr_empty {num} f.
Arguments insert_levels {num} levels cols.
Arguments pd_reset_index {num} df.
Arguments mk_series {num} _ _.
Arguments s_index {num} _.
Arguments s_values {num} _.
Arguments pd_getattr {num} attr df.
Arguments is_label {num} label c.
Arguments series_contains {num} label s.
Arguments pd_getitem {num} name df.
Arguments select_columns {num} wanted cols.
Arguments pd_getitem_list {num} wanted df.
Arguments pd_copy {num} df.
Arguments assign_column {num} name vs cols.
Arguments pd_setitem {num} name v df.
Arguments polars_concat_ignore_index {num} frames.
Arguments numbers {num} vs.
Arguments series_mean {num} mean s.

End Frame.

Import Frame.

(** ** [AlpacaClient] *)

Module AlpacaClient.

(** An argument that the source accepts as [None], as a string or as a
    [datetime]. *)
Inductive time_arg : Type :=
  | TNone
  | TStr (s : string)
  | TDatetime (dt : datetime).

Section Client.

Variable num : Type.

(** What [self.api] answers: the frame behind [.df] of a bar request, a
    quote object, the asset listing.  [pyval] is whatever the attributes
    of a quote object hold; [float(...)] and [int(...)] may refuse it. *)
Variables (sdk_quote pyval : Type).

Record sdk_asset : Type := mk_sdk_asset {
  sdk_id : string;
  sdk_symbol : string;
  sdk_name : string;
  sdk_exchange : string;
  sdk_tradable : bool
}.

Variable api_get_bars :
  list string -> string -> date * Z -> date * Z -> option Z -> result (pandas num).
Variable api_get_latest_quote : string -> result sdk_quote.
Variable api_list_assets : string -> string -> result (list sdk_asset).
Variable quote_attr : sdk_quote -> string -> result pyval.
Variable py_float : pyval -> result num.
Variable py_int : pyval -> result Z.

(** The reading of the clock, [datetime.now()], during the call. *)
Variable now : datetime.

(** Lines 51-89. *)
Definition get_bars (symbols : list string) (timeframe : string)
    (start end_ : time_arg) (limit : option Z) : result (frame num) :=
  log_and_reraise (
    do start <-
      match start with
      | TNone => datetime_sub_days now 1
      | TStr s => Iso.fromisoformat (Iso.replace_Z s)
      | TDatetime dt => Ok dt
      end;
    do end_ <-
      match end_ with
      | TNone => Ok now
      | TStr s => Iso.fromisoformat (Iso.replace_Z s)
      | TDatetime dt => Ok dt
      end;
    let start_str := strftime_seconds start in
    let end_str := strftime_seconds end_ in
    do bars <- api_get_bars symbols timeframe start_str end_str limit;
    if pd_empty bars then Ok polars_DataFrame
    else Ok (Pandas bars)).

(** The value stored under each symbol by [get_latest_quotes]. *)
Record quote : Type := mk_quote {
  bid_price : num;
  bid_size : Z;
  ask_price : num;
  ask_size : Z;
  timestamp : pyval
}.

(** Lines 99-105: the dict display, its items evaluated in order. *)
Definition quote_snapshot (q : sdk_quote) : result quote :=
  do bp <- quote_attr q "bp";
  do bid_price <- py_float bp;
  do bs <- quote_attr q "bs";
  do bid_size <- py_int bs;
  do ap <- quote_attr q "ap";
  do ask_price <- py_float ap;
  do as_ <- quote_attr q "as_";
  do ask_size <- py_int as_;
  do t <- quote_attr q "t";
  Ok (mk_quote bid_price bid_size ask_price ask_size t).

(** Lines 97-105: one turn of the loop for [symbol]. *)
Definition fetch_quote (symbol : string) : result quote :=
  do q <- api_get_latest_quote symbol;
  quote_snapshot q.

Fixpoint quotes_loop (symbols : list string) (quotes : gmap string quote)
  : result (gmap string quote) :=
  match symbols with
  | [] => Ok quotes
  | symbol :: rest =>
      do snapshot <- fetch_quote symbol;
      quotes_loop rest (<[symbol := snapshot]> quotes)
  end.

(** Lines 91-110. *)
Definition get_latest_quotes (symbols : list string)
  : result (gmap string quote) :=
  log_and_reraise (quotes_loop symbols ∅).

(** The dict built for each asset by [get_assets]. *)
Record asset : Type := mk_asset {
  a_id : string;
  a_symbol : string;
  a_name : string;
  a_exchange : string;
  a_tradable : bool
}.

(** Lines 122-138. *)
Definition get_assets (status asset_class : string) : result (list asset) :=
  log_and_reraise (
    do assets <- api_list_assets status asset_class;
    Ok (map (fun a => mk_asset (sdk_id a) (sdk_symbol a) (sdk_name a)
                               (sdk_exchange a) (sdk_tradable a)) assets)).

End Client.

Arguments mk_quote {num pyval} _ _ _ _ _.
Arguments bid_price {num pyval} _.
Arguments bid_size {num pyval} _.
Arguments ask_price {num pyval} _.
Arguments ask_size {num pyval} _.
Arguments timestamp {num pyval} _.
Arguments get_bars {num} api_get_bars now symbols timeframe start end_ limit.
Arguments quote_snapshot {num sdk_quote pyval} quote_attr py_float py_int q.
Arguments fetch_quote {num sdk_quote pyval}
  api_get_latest_quote quote_attr py_float py_int symbol.
Arguments quotes_loop {num sdk_quote pyval}
  api_get_latest_quote quote_attr py_float py_int symbols quotes.
Arguments get_latest_quotes {num sdk_quote pyval}
  api_get_latest_quote quote_attr py_float py_int symbols.

End AlpacaClient.

Import AlpacaClient.

(** ** [AlpacaConnector] *)

Module AlpacaConnector.

(** [start_date] / [end_date] of [backfill]: [None], a string or a date.
    A [datetime] object, which lines 62-70 would hand to the loop with its
    time of day, is not among the arguments modelled here. *)
Inductive date_arg : Type :=
  | DNone
  | DStr (s : string)
  | DDate (d : date).

(** The [start=] and [end=] of one call of [fetch_bars] made by
    [backfill]. *)
Record window : Type := mk_window {
  w_start : datetime;
  w_end : datetime
}.

(** [str.isalnum()] on ASCII text: every character a letter or a digit,
    and at least one character.  Python's method also accepts letters and
    digits beyond ASCII; the statements that read this test on an
    arbitrary symbol say so by asking for ASCII characters. *)
Definition is_alnum_char (c : ascii) : bool :=
  let n := nat_of_ascii c in
  ((48 <=? n) && (n <=? 57) || (65 <=? n) && (n <=? 90)
   || (97 <=? n) && (n <=? 122))%nat.

Fixpoint all_alnum (s : string) : bool :=
  match s with
  | EmptyString => true
  | String c s' => is_alnum_char c && all_alnum s'
  end.

Definition isalnum (s : string) : bool :=
  match s with
  | EmptyString => false
  | _ => all_alnum s
  end.

(** [str.isascii()]: every character below 128. *)
Definition is_ascii_char (c : ascii) : bool := (nat_of_ascii c <? 128)%nat.

Fixpoint isascii (s : string) : bool :=
  match s with
  | EmptyString => true
  | String c s' => is_ascii_char c && isascii s'
  end.

(** The vocabulary of the statements about windows. *)
Definition span_days (w : window) : Z :=
  (dt_date (w_end w) - dt_date (w_start w))%Z.

(** From midnight of the first day to the last instant of the last. *)
Definition day_aligned (w : window) : Prop :=
  dt_us (w_start w) = time_min /\ dt_us (w_end w) = time_max.

(** [w2] begins at the instant after [w1] ends, which is the midnight of
    the day after [w1]'s last day. *)
Definition adjacent (w1 w2 : window) : Prop :=
  w_start w2 = next_instant (w_end w1)
  /\ dt_date (w_start w2) = (dt_date (w_end w1) + 1)%Z.

Fixpoint contiguous (ws : list window) : Prop :=
  match ws with
  | w1 :: rest =>
      match rest with
      | w2 :: _ => adjacent w1 w2
      | [] => True
      end /\ contiguous rest
  | [] => True
  end.

(** [date d1 .. date d2], whole days. *)
Definition window_between (d1 d2 : date) : window :=
  mk_window (combine d1 time_min) (combine d2 time_max).

(** The windows a run of the loop can hand out from [current_date] on:
    each one [current_date .. batch_end] with
    [batch_end = min (current_date + 7) end_date], the next one starting
    on [batch_end + 1]. *)
Fixpoint chain (end_date current_date : date) (ws : list window) : Prop :=
  match ws with
  | [] => True
  | w :: rest =>
      let batch_end := Z.min (current_date + 7) end_date in
      (current_date <= end_date)%Z
      /\ w = window_between current_date batch_end
      /\ chain end_date (batch_end + 1)%Z rest
  end.

(** Each window begins the day after the one before it ended, which is
    later than the day the one before it began. *)
Fixpoint advancing (ws : list window) : Prop :=
  match ws with
  | w1 :: rest =>
      match rest with
      | w2 :: _ =>
          dt_date (w_start w2) = (dt_date (w_end w1) + 1)%Z
          /\ (dt_date (w_start w1) < dt_date (w_start w2))%Z
      | [] => True
      end /\ advancing rest
  | [] => True
  end.

Definition starts_on (start_date : date) (ws : list window) : Prop :=
  exists w, head ws = Some w /\ w_start w = combine start_date time_min.

Definition ends_on (end_date : date) (ws : list window) : Prop :=
  exists w, last ws = Some w /\ w_end w = combine end_date time_max.

(** Reading a local variable: a name the function assigns somewhere is
    local to it, and reading it before its first assignment raises. *)
Definition load_local {A : Type} (name : string) (slot : option A) : result A :=
  match slot with
  | Some v => Ok v
  | None => Raise (UnboundLocalError name)
  end.

Section Connector.

Variable num : Type.
Variable api_get_bars :
  list string -> string -> date * Z -> date * Z -> option Z -> result (pandas num).
Variable api_list_assets : string -> string -> result (list sdk_asset).
Variable now : datetime.

(** [Series.mean()] and [>=] on floating-point numbers. *)
Variable mean : list num -> num.
Variable ge : num -> num -> bool.

Definition required_columns : list string :=
  ["symbol"; "timestamp"; "open"; "high"; "low"; "close"].

(** Lines 41-44: [true] when the loop runs through, [false] when it
    leaves through [return pd.DataFrame()]. *)
Fixpoint check_required (cols : list string) (bars : pandas num) : result bool :=
  match cols with
  | [] => Ok true
  | col :: rest =>
      do column <- pd_getattr "column" bars;      (* bars.column *)
      if negb (series_contains col column) then Ok false
      else check_required rest bars
  end.

(** Lines 46-50. *)
Definition format_bars (timeframe : string) (bars : pandas num)
  : result (pandas num) :=
  do selected <- pd_getitem_list required_columns bars;
  let formatted_bars := pd_copy selected in
  let formatted_bars := pd_setitem "timeframe" (CStr timeframe) formatted_bars in
  let formatted_bars := pd_setitem "source" (CStr "alpaca") formatted_bars in
  let formatted_bars := pd_setitem "fetched_at" (CTime now) formatted_bars in
  Ok formatted_bars.

(** Lines 28-56. *)
Definition fetch_bars (symbols : list string) (timeframe : string)
    (start end_ : time_arg) (limit : option Z) : result (frame num) :=
  log_and_reraise (
    do bars <- get_bars api_get_bars now symbols timeframe start end_ limit;
    do df <- as_pandas "empty" bars;                (* bars.empty *)
    if pd_empty df then Ok polars_DataFrame
    else
      do bars <- pd_reset_index df;
      do present <- check_required required_columns bars;
      if negb present then Ok polars_DataFrame
      else
        do formatted_bars <- format_bars timeframe bars;
        Ok (Pandas formatted_bars)).

(** *** [backfill]

    [self.fetch_bars] is looked up on the object at each call; the loop is
    written against any such method. *)

Section Backfill.

Variable self_fetch_bars :
  list string -> string -> time_arg -> time_arg -> option Z -> result (frame num).

Variables (symbols : list string) (timeframe : string) (batch_size : Z).

(** Lines 62-70. *)
Definition normalize_date (default : result date) (d : date_arg) : result date :=
  match d with
  | DNone => default
  | DStr s => do dt <- Iso.fromisoformat (Iso.replace_Z s); Ok (date_of dt)
  | DDate d => Ok d
  end.

Definition default_start_date : result date :=
  do dt <- datetime_sub_days now 30; Ok (date_of dt).

Definition default_end_date : result date := Ok (date_of now).

(** Lines 77-97.  The result pairs the windows handed to [fetch_bars], in
    order, with the way the loop ended: [Some (Ok all_data)] when the
    condition became false, [Some (Raise e)] when a statement of the body
    raised, [None] when [fuel] turns of the loop were not enough. *)
Fixpoint backfill_loop (fuel : nat) (end_date current_date : date)
    (all_data : list (frame num))
  : list window * option (result (list (frame num))) :=
  if (current_date <=? end_date)%Z then
    match fuel with
    | O => ([], None)
    | S fuel' =>
        match date_add_days current_date 7 with
        | Raise e => ([], Some (Raise e))
        | Ok plus7 =>
            let batch_end := Z.min plus7 end_date in
            let start_datetime := combine current_date time_min in
            let end_datetime := combine batch_end time_max in
            let w := mk_window start_datetime end_datetime in
            match self_fetch_bars symbols timeframe (TDatetime start_datetime)
                    (TDatetime end_datetime) (Some batch_size) with
            | Raise e => ([w], Some (Raise e))
            | Ok batch_data =>
                match attr_empty batch_data with       (* batch_data.empty *)
                | Raise e => ([w], Some (Raise e))
                | Ok is_empty =>
                    let all_data' :=
                      if negb is_empty then all_data ++ [batch_data]
                      else all_data in
                    match date_add_days batch_end 1 with
                    | Raise e => ([w], Some (Raise e))
                    | Ok next =>
                        let '(ws, r) :=
                          backfill_loop fuel' end_date next all_data' in
                        (w :: ws, r)
                    end
                end
            end
        end
    end
  else ([], Some (Ok all_data)).

(** Lines 99-103. *)
Definition backfill_result (all_data : list (frame num)) : result (frame num) :=
  match all_data with
  | [] => Ok polars_DataFrame
  | _ => polars_concat_ignore_index all_data
  end.

(** Lines 74-97, on the normalized dates.  Each turn of the loop moves
    [current_date] forward, so [end_date - start_date + 1] turns are
    provided. *)
Definition backfill_dates (start_date end_date : date)
  : list window * option (result (list (frame num))) :=
  let current_date := start_date in
  let all_data := [] in
  backfill_loop (Z.to_nat (end_date - start_date + 1)) end_date
    current_date all_data.

(** Lines 58-106. *)
Definition backfill (start_date end_date : date_arg)
  : list window * option (result (frame num)) :=
  match normalize_date default_start_date start_date with
  | Raise e => ([], Some (Raise e))
  | Ok start_date =>
      match normalize_date default_end_date end_date with
      | Raise e => ([], Some (Raise e))
      | Ok end_date =>
          let '(ws, r) := backfill_dates start_date end_date in
          (ws,
           match r with
           | None => None
           | Some (Raise e) => Some (Raise e)
           | Some (Ok all_data) =>
               Some (log_and_reraise (backfill_result all_data))
           end)
      end
  end.

Definition windows_of {A : Type} (run : list window * A) : list window := fst run.
Definition outcome_of {A : Type} (run : list window * A) : A := snd run.

(** [self.fetch_bars] answers the window with a frame that has [.empty]. *)
Definition answered (w : window) : Prop :=
  exists batch_data is_empty,
    self_fetch_bars symbols timeframe (TDatetime (w_start w))
      (TDatetime (w_end w)) (Some batch_size) = Ok batch_data
    /\ attr_empty batch_data = Ok is_empty.

Definition fetch_fails (w : window) (e : exn) : Prop :=
  self_fetch_bars symbols timeframe (TDatetime (w_start w))
    (TDatetime (w_end w)) (Some batch_size) = Raise e.

End Backfill.

(** *** [get_tradable_symbols] *)

(** Lines 168-176, the body of the inner [try]: [Ok true] when the symbol
    is appended, [Ok false] when the turn ends without appending. *)
Definition symbol_passes (symbol : string) (min_price min_volume : num)
  : result bool :=
  do bars <- get_bars api_get_bars now [symbol] "1Min" TNone TNone (Some 5%Z);
  do df <- as_pandas "empty" bars;                  (* bars.empty *)
  if pd_empty df then Ok false
  else
    do close <- pd_getitem "close" df;
    do avg_close <- series_mean mean close;
    do volume <- pd_getitem "volume" df;
    do avg_volume <- series_mean mean volume;
    Ok (ge avg_close min_price && ge avg_volume min_volume).

(** Lines 160-180: one turn of the loop. *)
Definition tradable_body (min_price min_volume : num) (a : asset)
    (tradable_symbols : list string) : list string :=
  if negb (a_tradable a) then tradable_symbols
  else
    let symbol := a_symbol a in
    if negb (isalnum symbol) then tradable_symbols
    else
      match symbol_passes symbol min_price min_volume with
      | Ok true => tradable_symbols ++ [symbol]
      | Ok false => tradable_symbols
      | Raise _ => tradable_symbols         (* except Exception: continue *)
      end.

Fixpoint tradable_loop (min_price min_volume : num) (iterable : list asset)
    (tradable_symbols : list string) : list string :=
  match iterable with
  | [] => tradable_symbols
  | a :: rest =>
      tradable_loop min_price min_volume rest
        (tradable_body min_price min_volume a tradable_symbols)
  end.

(** The assets for which a turn of the loop appends the symbol. *)
Definition appended (min_price min_volume : num) (a : asset) : bool :=
  a_tradable a && isalnum (a_symbol a)
  && match symbol_passes (a_symbol a) min_price min_volume with
     | Ok passes => passes
     | Raise _ => false
     end.

(** The recent bars of [symbol] have numeric [close] and [volume] columns
    whose means reach [min_price] and [min_volume]. *)
Definition reaches_thresholds (min_price min_volume : num) (symbol : string)
  : Prop :=
  exists df close volume closes volumes,
    get_bars api_get_bars now [symbol] "1Min" TNone TNone (Some 5%Z)
    = Ok (Pandas df)
    /\ find_column "close" (pd_columns df) = Some close
    /\ find_column "volume" (pd_columns df) = Some volume
    /\ numbers close = Some closes
    /\ numbers volume = Some volumes
    /\ ge (mean closes) min_price = true
    /\ ge (mean volumes) min_volume = true.

(** Lines 151-187.  Line 159 reads [for asset in asset:]: the iterable is
    the local [asset], which only the loop itself would bind, and not the
    list [assets] of line 155. *)
Definition get_tradable_symbols (status asset_class : string)
    (min_price min_volume : num) : result (list string) :=
  log_and_reraise (
    do assets <- get_assets api_list_assets status asset_class;
    let tradable_symbols : list string := [] in
    let asset : option (list AlpacaClient.asset) := None in
    do iterable <- load_local "asset" asset;
    Ok (tradable_loop min_price min_volume iterable tradable_symbols)).

End Connector.

End AlpacaConnector.

(** ** Construction of the client and of the connector

    [os.environ] is a finite map from names to values.  [load_dotenv()]
    adds the variables of the [.env] file it finds ([dotenv] below, empty
    when there is none) and leaves the variables that are already set as
    they are.  The file is looked for upwards from the directory of the
    module that makes the call, so the call in [client.py] and the call in
    [alpaca_connector.py] each have a file of their own. *)

Module Construction.

Definition load_dotenv (dotenv environ : gmap string string)
  : gmap string string :=
  environ ∪ dotenv.

(** Truth value of [None], of a string. *)
Definition truthy (v : option string) : bool :=
  match v with
  | Some (String _ _) => true
  | _ => false
  end.

(** [a or b] *)
Definition py_or (a b : option string) : option string :=
  if truthy a then a else b.

(** [arg or os.environ.get(name)] *)
Definition credential (arg : option string) (name : string)
    (environ : gmap string string) : option string :=
  py_or arg (environ !! name).

Record client (api : Type) : Type := mk_client {
  api_key : string;
  api_secret : string;
  base_url : string;
  api_handle : api
}.

Arguments mk_client {api} _ _ _ _.
Arguments api_key {api} _.
Arguments api_secret {api} _.
Arguments base_url {api} _.
Arguments api_handle {api} _.

Definition credentials_missing : exn :=
  ValueError "Alpaca API Credentials messing".

Section Init.

Variable api : Type.

(** [REST(key, secret, base_url)] of the SDK. *)
Variable REST : string -> string -> string -> result api.

(** The [.env] file found from [src/alpaca/client.py]. *)
Variable dotenv : gmap string string.

(** [AlpacaClient.__init__], client.py lines 15-29: the result and the
    environment the call leaves behind. *)
Definition client_init (api_key api_secret base_url : option string)
    (environ : gmap string string)
  : result (client api) * gmap string string :=
  let environ := load_dotenv dotenv environ in
  let self_api_key := credential api_key "ALPACA_API_KEY" environ in
  let self_api_secret := credential api_secret "ALPACA_API_SECRET" environ in
  let self_base_url := credential base_url "ALPACA_BASE_URL" environ in
  (if negb (truthy self_api_key) || negb (truthy self_api_secret)
      || negb (truthy self_base_url)
   then Raise credentials_missing
   else
     match self_api_key, self_api_secret, self_base_url with
     | Some k, Some s, Some u =>
         do self_api <- REST k s u;
         Ok (mk_client k s u self_api)
     | _, _, _ => Raise credentials_missing
     end,
   environ).

(** [AlpacaConnector.__init__], connector lines 15-21: [self.client].
    [dotenv_connector] is the [.env] file found from
    [src/ingestion/connectors/alpaca_connector.py]. *)
Definition connector_init (dotenv_connector : gmap string string)
    (api_key api_secret base_url : option string)
    (environ : gmap string string)
  : result (client api) * gmap string string :=
  let environ := load_dotenv dotenv_connector environ in
  client_init api_key api_secret base_url environ.

End Init.

End Construction.

(** ** [AlpacaConnector.setup_streaming] *)

Module Streaming.

Import Construction.

(** [needle in hay] on strings. *)
Fixpoint contains (needle hay : string) : bool :=
  String.prefix needle hay
  || match hay with
     | EmptyString => false
     | String _ rest => contains needle rest
     end.

Definition PAPER_URL : string := "https://paper-api.alpaca.markets".
Definition LIVE_URL : string := "https://api.alpaca.markets".

Section Stream.

Variables (num api stream sdk_bar pyval : Type).

(** [Stream(key, secret, base_url=..., data_feed=...)] and
    [stream.subscribe_bars(on_minute_bars, symbol)] of the SDK; the
    attributes of a bar object; the table cell that holds a value. *)
Variable Stream : string -> string -> string -> string -> result stream.
Variable subscribe_bars : stream -> string -> result stream.
Variable bar_attr : sdk_bar -> string -> result pyval.
Variable cell_of : pyval -> cell num.
Variable now : datetime.

(** Lines 141-142. *)
Fixpoint subscribe_all (symbols : list string) (st : stream) : result stream :=
  match symbols with
  | [] => Ok st
  | symbol :: rest =>
      do st' <- subscribe_bars st symbol;
      subscribe_all rest st'
  end.

(** Lines 108-149, without the handler. *)
Definition setup_streaming (self_client : client api) (symbols : list string)
  : result stream :=
  log_and_reraise (
    let api_key := api_key self_client in
    let api_secret := api_secret self_client in
    let base_url := base_url self_client in
    do st <-
      (if contains "paper" base_url
       then Stream api_key api_secret PAPER_URL "iex"
       else Stream api_key api_secret LIVE_URL "iex");
    subscribe_all symbols st).

(** [pd.Timestamp] with [pd] bound to polars: the module has no such
    attribute. *)
Definition polars_Timestamp : result (pyval -> result (cell num)) :=
  Raise (AttributeError "polars" "Timestamp").

(** Lines 123-139: the handler, run on one bar.  The items of the dict
    display are evaluated in order. *)
Definition on_minute_bars (callback : frame num -> result unit) (bar : sdk_bar)
  : result unit :=
  do symbol <- bar_attr bar "symbol";
  do Timestamp <- polars_Timestamp;
  do ts <- bar_attr bar "timestamp";
  do timestamp <- Timestamp ts;
  do open <- bar_attr bar "open";
  do high <- bar_attr bar "high";
  do low <- bar_attr bar "low";
  do close <- bar_attr bar "close";
  do volume <- bar_attr bar "volume";
  let bar_dict : list (column num) :=
    [("symbol", [cell_of symbol]);
     ("timestamp", [timestamp]);
     ("open", [cell_of open]);
     ("high", [cell_of high]);
     ("low", [cell_of low]);
     ("close", [cell_of close]);
     ("volume", [cell_of volume]);
     ("timeframe", [CStr "1Min"]);
     ("source", [CStr "alpaca_stream"]);
     ("fetched_at", [CTime now])] in
  let df := Polars (mk_polars bar_dict) in
  callback df.

End Stream.

End Streaming.

(** ** Days and windows *)

Module Coverage.

Import AlpacaConnector.

(** The day [d] lies in the window [w]. *)
Definition covers (w : window) (d : date) : Prop :=
  (dt_date (w_start w) <= d <= dt_date (w_end w))%Z.

End Coverage.

(** ** Sample data

    Concrete answers of the SDK, used to run the definitions.  Numbers are
    integers here and [mean_Z] divides exactly on the samples. *)

Module Sample.

Local Open Scope Z_scope.

Definition sample_now : datetime :=
  combine (ymd2ord 2024 1 15) (12 * 3600 * US_PER_SECOND).

Definition bar_time (i : nat) : datetime :=
  combine (ymd2ord 2024 1 12) ((14 * 3600 + 30 * 60 + Z.of_nat i * 60) * US_PER_SECOND).

Definition mean_Z (xs : list Z) : Z :=
  fold_right Z.add 0 xs / Z.of_nat (length xs).

(** The frame behind [.df] for one symbol: indexed by [timestamp], one row
    per closing price. *)
Definition bars_of (symbol : string) (closes volumes : list Z) : pandas Z :=
  let n := length closes in
  mk_pandas n
    [("timestamp", map (fun i => CTime (bar_time i)) (seq 0 n))]
    [("symbol", repeat (CStr symbol) n);
     ("open", map CNum closes);
     ("high", map CNum closes);
     ("low", map CNum closes);
     ("close", map CNum closes);
     ("volume", map CNum volumes)].

Definition one_bar : pandas Z := bars_of "AAPL" [187] [1200000].

(** The same answer without its [close] column. *)
Definition one_bar_without_close : pandas Z :=
  mk_pandas 1
    [("timestamp", [CTime (bar_time 0)])]
    [("symbol", [CStr "AAPL"]);
     ("open", [CNum 187]);
     ("high", [CNum 187]);
     ("low", [CNum 187]);
     ("volume", [CNum 1200000])].

(** The SDK's answer when there is no bar in the range. *)
Definition no_bars : pandas Z := mk_pandas 0 [] [].

Definition api_always (df : pandas Z)
  : list string -> string -> date * Z -> date * Z -> option Z -> result (pandas Z) :=
  fun _ _ _ _ _ => Ok df.

(** Five bars per symbol; [AAPL] trades at 10 with volume 600000, [EDGE]
    averages exactly 5 and 500000, [PENNY] averages 4, [THIN] has volume
    499999, and the request for [DOWN] fails. *)
Definition api_by_symbol
  : list string -> string -> date * Z -> date * Z -> option Z -> result (pandas Z) :=
  fun symbols _ _ _ _ =>
    match symbols with
    | [symbol] =>
        if String.eqb symbol "DOWN" then Raise (RemoteError "503")
        else if String.eqb symbol "EDGE" then
          Ok (bars_of symbol [4; 5; 6; 5; 5]
                [400000; 600000; 500000; 500000; 500000])
        else if String.eqb symbol "PENNY" then
          Ok (bars_of symbol [4; 4; 4; 4; 4]
                [600000; 600000; 600000; 600000; 600000])
        else if String.eqb symbol "THIN" then
          Ok (bars_of symbol [10; 10; 10; 10; 10]
                [499999; 499999; 499999; 499999; 499999])
        else
          Ok (bars_of symbol [10; 10; 10; 10; 10]
                [600000; 600000; 600000; 600000; 600000])
    | _ => Ok no_bars
    end.

Definition listed (symbol : string) (tradable : bool) : sdk_asset :=
  mk_sdk_asset ("id-" ++ symbol) symbol symbol "NASDAQ" tradable.

Definition api_assets (assets : list sdk_asset)
  : string -> string -> result (list sdk_asset) :=
  fun _ _ => Ok assets.

Definition as_dict (a : sdk_asset) : asset :=
  mk_asset (sdk_id a) (sdk_symbol a) (sdk_name a) (sdk_exchange a)
    (sdk_tradable a).

(** A [fetch_bars] that answers every window with one formatted row, and
    one that fails from 2024-01-09 on. *)
Definition fetch_one_row
  : list string -> string -> time_arg -> time_arg -> option Z -> result (frame Z) :=
  fun _ _ _ _ _ => Ok (Pandas one_bar).

Definition fetch_down_from_jan_9
  : list string -> string -> time_arg -> time_arg -> option Z -> result (frame Z) :=
  fun _ _ start _ _ =>
    match start with
    | TDatetime dt =>
        if ymd2ord 2024 1 9 <=? dt_date dt then Raise (RemoteError "503")
        else Ok (Pandas one_bar)
    | _ => Ok (Pandas one_bar)
    end.

(** Quote objects whose attributes are integers, a different one for each
    attribute; the quote of [DOWN] cannot be fetched and the quote of
    [ODD] has no bid size.  Prices are kept in tenths, so that [float] and
    [int] can be told apart. *)
Definition api_quote (symbol : string) : result string :=
  if String.eqb symbol "DOWN" then Raise (RemoteError "503") else Ok symbol.

Definition quote_field (q : string) (attr : string) : result Z :=
  let base := (100 * Z.of_nat (String.length q))%Z in
  if String.eqb q "ODD" && String.eqb attr "bs"
  then Raise (AttributeError "Quote" attr)
  else if String.eqb attr "bp" then Ok (base + 1)%Z
  else if String.eqb attr "bs" then Ok (base + 2)%Z
  else if String.eqb attr "ap" then Ok (base + 3)%Z
  else if String.eqb attr "as_" then Ok (base + 4)%Z
  else if String.eqb attr "t" then Ok (base + 5)%Z
  else Raise (AttributeError "Quote" attr).

Definition float_of (v : Z) : result Z := Ok (10 * v)%Z.
Definition int_of (v : Z) : result Z := Ok v.

End Sample.

(** More sample data: answers of the SDK, environments, a stream. *)

Module MoreSamples.

Import Construction.

Local Open Scope Z_scope.

(** A [fetch_bars] that answers every window with a frame without rows. *)
Definition fetch_nothing
  : list string -> string -> time_arg -> time_arg -> option Z -> result (frame Z) :=
  fun _ _ _ _ _ => Ok (Pandas Sample.no_bars).

Definition api_down
  : list string -> string -> date * Z -> date * Z -> option Z -> result (pandas Z) :=
  fun _ _ _ _ _ => Raise (RemoteError "503").

(** An answer that happens to have a column named [column]. *)
Definition bar_with_column : pandas Z :=
  mk_pandas 1
    [("timestamp", [CTime (Sample.bar_time 0)])]
    [("column", [CNum 1]); ("close", [CNum 187])].

(** A frame with a positional index and the six required columns, and
    two more. *)
Definition complete_frame : pandas Z :=
  mk_pandas 2 []
    [("timestamp", [CTime (Sample.bar_time 0); CTime (Sample.bar_time 1)]);
     ("symbol", [CStr "AAPL"; CStr "AAPL"]);
     ("open", [CNum 186; CNum 187]);
     ("high", [CNum 188; CNum 189]);
     ("low", [CNum 185; CNum 186]);
     ("close", [CNum 187; CNum 188]);
     ("volume", [CNum 1200000; CNum 900000]);
     ("vwap", [CNum 187; CNum 188])].

Definition environ_full : gmap string string :=
  <["ALPACA_API_KEY" := "PK-env"]>
    (<["ALPACA_API_SECRET" := "secret-env"]>
       (<["ALPACA_BASE_URL" := "https://paper-api.alpaca.markets"]> ∅)).

(** The key is set, to the empty string. *)
Definition environ_blank_key : gmap string string :=
  <["ALPACA_API_KEY" := ""]> ∅.

Definition dotenv_file : gmap string string :=
  <["ALPACA_API_KEY" := "PK-file"]>
    (<["ALPACA_API_SECRET" := "secret-file"]>
       (<["ALPACA_BASE_URL" := "https://api.alpaca.markets"]> ∅)).

(** The file found from the connector's module, with a key of its own
    and nothing else. *)
Definition dotenv_by_connector : gmap string string :=
  <["ALPACA_API_KEY" := "PK-connector-file"]> ∅.

Definition rest_ok : string -> string -> string -> result unit :=
  fun _ _ _ => Ok tt.

Definition paper_client : client unit :=
  mk_client "PK-env" "secret-env" "https://paper-api.alpaca.markets" tt.

Definition live_client : client unit :=
  mk_client "PK-env" "secret-env" "https://api.alpaca.markets" tt.

(** A stream is the endpoint it was opened on and the symbols subscribed
    to; no subscription to [DOWN] can be made. *)
Definition open_stream (key secret base_url data_feed : string)
  : result (string * list string) :=
  Ok (base_url, []).

Definition subscribe (st : string * list string) (symbol : string)
  : result (string * list string) :=
  if String.eqb symbol "DOWN" then Raise (RemoteError "503")
  else Ok (fst st, snd st ++ [symbol]).

End MoreSamples.

(** * Properties *)

Import AlpacaConnector.

Lemma log_and_reraise_id {A : Type} (m : result A) : log_and_reraise m = m.
Proof. destruct m; reflexivity. Qed.

Lemma date_add_days_Ok (d n o : Z) :
  date_add_days d n = Ok o -> o = (d + n)%Z /\ (0 < o <= MAXORDINAL)%Z.
Proof.
  unfold date_add_days.
  destruct ((0 <? d + n)%Z && (d + n <=? MAXORDINAL)%Z) eqn:E; [|discriminate].
  intros [= <-]. apply andb_prop in E as [E1 E2]. lia.
Qed.

Lemma date_add_days_in_range (d n : Z) :
  (0 < d + n <= MAXORDINAL)%Z -> date_add_days d n = Ok (d + n)%Z.
Proof.
  intros H. unfold date_add_days.
  replace ((0 <? d + n)%Z && (d + n <=? MAXORDINAL)%Z) with true; [done|].
  symmetry. apply andb_true_intro. split; lia.
Qed.

(** ** The backfill loop *)

Module BackfillFacts.

Section Loop.

Variable num : Type.
Variable fetch :
  list string -> string -> time_arg -> time_arg -> option Z -> result (frame num).
Variables (symbols : list string) (timeframe : string) (batch_size : Z).

Abbreviation loop := (backfill_loop num fetch symbols timeframe batch_size).
Abbreviation fetch_at w :=
  (fetch symbols timeframe (TDatetime (w_start w)) (TDatetime (w_end w))
     (Some batch_size)).

Lemma loop_O e cur acc :
  loop 0 e cur acc
  = if (cur <=? e)%Z then ([], None) else ([], Some (Ok acc)).
Proof. reflexivity. Qed.

(** With no date left to cover the loop body is not entered. *)
Lemma loop_exit fuel e cur acc :
  (e < cur)%Z -> loop fuel e cur acc = ([], Some (Ok acc)).
Proof.
  intros H. destruct fuel; simpl;
    destruct (cur <=? e)%Z eqn:E; try reflexivity; lia.
Qed.

(** Taking the first turn of [loop (S fuel) e cur acc] apart.  The goals
    come in this order: the turn went through; [batch_end + 1] overflowed;
    [.empty] raised; the fetch raised; [current_date + 7] overflowed; the
    condition was false. *)
Ltac first_turn e cur :=
  simpl;
  destruct (cur <=? e)%Z eqn:?Hle;
  [ destruct (date_add_days cur 7) as [?plus7|?] eqn:?H7;
    [ apply date_add_days_Ok in H7 as [-> ?Hr7];
      destruct (fetch symbols timeframe
                  (TDatetime (combine cur time_min))
                  (TDatetime (combine (Z.min (cur + 7) e) time_max))
                  (Some batch_size)) as [?batch_data|?] eqn:?Hfetch;
      [ destruct (attr_empty batch_data) as [?is_empty|?] eqn:?Hempty;
        [ destruct (date_add_days (Z.min (cur + 7) e) 1) as [?next|?] eqn:?H1;
          [ apply date_add_days_Ok in H1 as [-> ?Hr1] | ]
        | ]
      | ]
    | ]
  | ].

Lemma loop_chain fuel :
  forall e cur acc, chain e cur (fst (loop fuel e cur acc)).
Proof.
  induction fuel as [|fuel IH]; intros e cur acc.
  - simpl. destruct (cur <=? e)%Z; exact I.
  - first_turn e cur; simpl.
    all: try exact I.
    all: try (split; [lia | split; [reflexivity | exact I]]).
    specialize (IH e (Z.min (cur + 7) e + 1)%Z
                  (if negb is_empty then acc ++ [batch_data] else acc)).
    destruct (loop fuel e _ _) as [ws r]. simpl in *.
    split; [lia | split; [reflexivity | exact IH]].
Qed.

(** *** What a chain of windows looks like *)

Lemma next_instant_end_of_day (d : date) :
  next_instant (combine d time_max) = combine (d + 1)%Z time_min.
Proof. reflexivity. Qed.

Lemma chain_contiguous e : forall ws cur, chain e cur ws -> contiguous ws.
Proof.
  induction ws as [|w rest IH]; intros cur H; [exact I|].
  destruct H as (Hle & -> & Hrest). split; [|eauto].
  destruct rest as [|w2 rest']; [exact I|].
  destruct Hrest as (_ & -> & _). split; reflexivity.
Qed.

Lemma chain_advancing e : forall ws cur, chain e cur ws -> advancing ws.
Proof.
  induction ws as [|w rest IH]; intros cur H; [exact I|].
  destruct H as (Hle & -> & Hrest). split; [|eauto].
  destruct rest as [|w2 rest']; [exact I|].
  destruct Hrest as (_ & -> & _). simpl. lia.
Qed.

Lemma chain_spans e : forall ws cur,
  chain e cur ws ->
  Forall (fun w => day_aligned w /\ (0 <= span_days w <= 7)%Z) ws.
Proof.
  induction ws as [|w rest IH]; intros cur H; [constructor|].
  destruct H as (Hle & -> & Hrest). constructor; [|eauto].
  split; [split; reflexivity|]. unfold span_days. simpl. lia.
Qed.

Lemma chain_bounds e : forall ws cur,
  chain e cur ws ->
  Forall (fun w => (cur <= dt_date (w_start w))%Z
                   /\ (dt_date (w_end w) <= e)%Z) ws.
Proof.
  induction ws as [|w rest IH]; intros cur H; [constructor|].
  destruct H as (Hle & -> & Hrest). constructor; [simpl; lia|].
  eapply Forall_impl; [apply (IH _ Hrest)|].
  simpl. intros w' [H1 H2]. split; lia.
Qed.

Lemma chain_NoDup e : forall ws cur, chain e cur ws -> NoDup ws.
Proof.
  induction ws as [|w rest IH]; intros cur H; [constructor|].
  pose proof H as (Hle & -> & Hrest). constructor; [|eauto].
  intros Hin. apply chain_bounds in Hrest.
  rewrite Forall_forall in Hrest. apply Hrest in Hin as [Hin _].
  simpl in Hin. lia.
Qed.

Lemma chain_starts_on e cur w rest :
  chain e cur (w :: rest) -> starts_on cur (w :: rest).
Proof. intros (_ & -> & _). exists (window_between cur (Z.min (cur + 7) e)). done. Qed.

(** *** The windows of a run *)

Lemma loop_completed_ends_on fuel :
  forall e cur acc ws all_data,
    (cur <= e)%Z ->
    loop fuel e cur acc = (ws, Some (Ok all_data)) ->
    ends_on e ws.
Proof.
  induction fuel as [|fuel IH]; intros e cur acc ws all_data Hce.
  - simpl. destruct (cur <=? e)%Z eqn:E; [discriminate | lia].
  - first_turn e cur; try discriminate; [|lia].
    destruct (loop fuel e _ _) as [ws' r] eqn:Hloop.
    intros [= <- ->].
    destruct (Z_le_gt_dec (Z.min (cur + 7) e + 1) e) as [Hmore|Hdone].
    + destruct (IH _ _ _ _ _ Hmore Hloop) as (w & Hlast & Hend).
      exists w. split; [|exact Hend].
      rewrite last_cons, Hlast. reflexivity.
    + rewrite loop_exit in Hloop by lia. injection Hloop as <- _.
      eexists. split; [reflexivity|].
      simpl. f_equal. lia.
Qed.

(** *** Termination *)

Lemma loop_terminates fuel :
  forall e cur acc,
    (Z.to_nat (e - cur + 1) <= fuel)%nat ->
    snd (loop fuel e cur acc) <> None.
Proof.
  induction fuel as [|fuel IH]; intros e cur acc Hfuel.
  - simpl. destruct (cur <=? e)%Z eqn:E; [lia | discriminate].
  - first_turn e cur; simpl; try discriminate.
    specialize (IH e (Z.min (cur + 7) e + 1)%Z
                  (if negb is_empty then acc ++ [batch_data] else acc)).
    destruct (loop fuel e _ _) as [ws' r]. simpl in *. apply IH. lia.
Qed.

Lemma loop_fuel_irrelevant fuel :
  forall fuel' e cur acc,
    (Z.to_nat (e - cur + 1) <= fuel)%nat ->
    (fuel <= fuel')%nat ->
    loop fuel' e cur acc = loop fuel e cur acc.
Proof.
  induction fuel as [|fuel IH]; intros fuel' e cur acc Hfuel Hle.
  - rewrite !loop_exit by lia. reflexivity.
  - destruct fuel' as [|fuel']; [lia|].
    first_turn e cur; try reflexivity.
    rewrite (IH fuel') by lia. reflexivity.
Qed.

(** *** A fetch that raises *)

Lemma loop_fetch_failure fuel :
  forall e cur acc w ex,
    In w (fst (loop fuel e cur acc)) ->
    fetch_at w = Raise ex ->
    snd (loop fuel e cur acc) = Some (Raise ex)
    /\ last (fst (loop fuel e cur acc)) = Some w.
Proof.
  induction fuel as [|fuel IH]; intros e cur acc w ex.
  - simpl. destruct (cur <=? e)%Z; intros [].
  - first_turn e cur; simpl; [ | | | | intros [] | intros [] ].
    + specialize (IH e (Z.min (cur + 7) e + 1)%Z
                    (if negb is_empty then acc ++ [batch_data] else acc) w ex).
      destruct (loop fuel e _ _) as [ws' r]. simpl in *.
      intros [<- | Hin] Hw.
      * simpl in Hw. congruence.
      * destruct (IH Hin Hw) as [-> Hlast]. split; [reflexivity|].
        rewrite last_cons, Hlast. reflexivity.
    + intros [<- | []] Hw. simpl in Hw. congruence.
    + intros [<- | []] Hw. simpl in Hw. congruence.
    + intros [<- | []] Hw. simpl in Hw. split; [congruence | reflexivity].
Qed.

(** *** A run in which every fetch is answered *)

Lemma loop_answered_completes fuel :
  forall e cur acc,
    (1 <= cur)%Z -> (e <= MAXORDINAL - 7)%Z ->
    (Z.to_nat (e - cur + 1) <= fuel)%nat ->
    (forall w, In w (fst (loop fuel e cur acc)) ->
               answered num fetch symbols timeframe batch_size w) ->
    exists all_data, snd (loop fuel e cur acc) = Some (Ok all_data).
Proof.
  induction fuel as [|fuel IH]; intros e cur acc Hcur He Hfuel.
  - rewrite loop_exit by lia. eauto.
  - first_turn e cur; simpl.
    + specialize (IH e (Z.min (cur + 7) e + 1)%Z
                    (if negb is_empty then acc ++ [batch_data] else acc)).
      destruct (loop fuel e _ _) as [ws' r]. simpl in *.
      intros Hans. apply IH; [lia | lia | lia | auto].
    + unfold date_add_days in H1.
      replace ((0 <? Z.min (cur + 7) e + 1)%Z
               && (Z.min (cur + 7) e + 1 <=? MAXORDINAL)%Z) with true in H1;
        [discriminate|].
      symmetry. apply andb_true_intro. split; lia.
    + intros Hans. destruct (Hans _ (or_introl eq_refl)) as (bd & b & Hf & Hb).
      simpl in Hf. congruence.
    + intros Hans. destruct (Hans _ (or_introl eq_refl)) as (bd & b & Hf & Hb).
      simpl in Hf. congruence.
    + unfold date_add_days in H7.
      replace ((0 <? cur + 7)%Z && (cur + 7 <=? MAXORDINAL)%Z) with true in H7;
        [discriminate|].
      symmetry. apply andb_true_intro. split; lia.
    + eauto.
Qed.

(** *** The statements about [backfill] *)

Variable now : datetime.

Abbreviation run_dates := (backfill_dates num fetch symbols timeframe batch_size).
Abbreviation run := (backfill num now fetch symbols timeframe batch_size).

Lemma backfill_dates_chain s e : chain e s (windows_of (run_dates s e)).
Proof. apply loop_chain. Qed.

(** The windows of a run of the loop that reaches its end: contiguous,
    whole days, at most 7 days each, from [start_date] to [end_date]. *)
Lemma backfill_completed_windows (s e : date) ws all_data :
  (s <= e)%Z ->
  run_dates s e = (ws, Some (Ok all_data)) ->
  contiguous ws
  /\ Forall (fun w => day_aligned w /\ (0 <= span_days w <= 7)%Z) ws
  /\ starts_on s ws
  /\ ends_on e ws.
Proof.
  intros Hse Hrun.
  pose proof (backfill_dates_chain s e) as Hchain.
  rewrite Hrun in Hchain. simpl in Hchain.
  assert (Hend : ends_on e ws)
    by (eapply loop_completed_ends_on; [exact Hse | exact Hrun]).
  split; [eapply chain_contiguous; eauto|].
  split; [eapply chain_spans; eauto|].
  split; [|exact Hend].
  destruct ws as [|w rest]; [|eapply chain_starts_on; eauto].
  destruct Hend as (w & Hlast & _). discriminate.
Qed.

(** Contiguity and the 7-day bound need neither [start_date <= end_date]
    nor a run that reaches its end. *)
Lemma backfill_windows_always (s e : date) :
  let ws := windows_of (run_dates s e) in
  contiguous ws
  /\ Forall (fun w => day_aligned w /\ (0 <= span_days w <= 7)%Z) ws
  /\ NoDup ws.
Proof.
  pose proof (backfill_dates_chain s e) as Hchain. simpl.
  split; [eapply chain_contiguous; eauto|].
  split; [eapply chain_spans; eauto | eapply chain_NoDup; eauto].
Qed.

(** The loop reaches its end when every fetch is answered and
    [end_date] is a week or more before [date.max]. *)
Lemma backfill_dates_completes (s e : date) :
  (1 <= s)%Z -> (e <= MAXORDINAL - 7)%Z ->
  (forall w, In w (windows_of (run_dates s e)) ->
             answered num fetch symbols timeframe batch_size w) ->
  exists all_data, outcome_of (run_dates s e) = Some (Ok all_data).
Proof.
  intros Hs He Hans. apply loop_answered_completes; auto.
Qed.

(** The loop on its own.  For every [start_date <= end_date] with
    [end_date] at least 7 days before [date.max], and a [fetch_bars] that
    answers the windows it is asked for, the loop reaches its end and the windows it
    requested are contiguous (each starts at the instant after the previous
    one ends, the midnight after the previous [batch_end]), each runs from
    midnight to the last instant of a day at most 7 days later, the first
    starts on [start_date] and the last ends on [end_date]. *)
Theorem backfill_windows (s e : date) :
  (1 <= s)%Z -> (s <= e)%Z -> (e <= MAXORDINAL - 7)%Z ->
  (forall w, In w (windows_of (run_dates s e)) ->
             answered num fetch symbols timeframe batch_size w) ->
  (exists all_data, outcome_of (run_dates s e) = Some (Ok all_data))
  /\ contiguous (windows_of (run_dates s e))
  /\ Forall (fun w => day_aligned w /\ (0 <= span_days w <= 7)%Z)
       (windows_of (run_dates s e))
  /\ starts_on s (windows_of (run_dates s e))
  /\ ends_on e (windows_of (run_dates s e)).
Proof.
  intros Hs Hse He Hans.
  destruct (backfill_dates_completes s e Hs He Hans) as [all_data Hout].
  split; [eauto|].
  destruct (run_dates s e) as [ws r] eqn:Hrun.
  unfold outcome_of, windows_of in *. simpl in *. subst r.
  exact (backfill_completed_windows s e ws all_data Hse Hrun).
Qed.

Lemma backfill_unfold_dates (s e : date) :
  windows_of (run (DDate s) (DDate e)) = windows_of (run_dates s e)
  /\ outcome_of (run (DDate s) (DDate e))
     = match outcome_of (run_dates s e) with
       | None => None
       | Some (Raise ex) => Some (Raise ex)
       | Some (Ok all_data) =>
           Some (log_and_reraise (backfill_result num all_data))
       end.
Proof.
  unfold backfill. simpl.
  destruct (backfill_dates _ _ _ _ _ _ _) as [ws r]. split; reflexivity.
Qed.

(** With [start_date="2024-01-01"] and [end_date="2024-01-10"], and the
    first fetch answered, the loop hands [fetch_bars] exactly two windows:
    2024-01-01 .. 2024-01-08 and 2024-01-09 .. 2024-01-10. *)
Lemma backfill_example_answered :
  answered num fetch symbols timeframe batch_size
    (window_between (ymd2ord 2024 1 1) (ymd2ord 2024 1 8)) ->
  windows_of (run (DStr "2024-01-01") (DStr "2024-01-10"))
  = [window_between (ymd2ord 2024 1 1) (ymd2ord 2024 1 8);
     window_between (ymd2ord 2024 1 9) (ymd2ord 2024 1 10)].
Proof.
  intros (batch_data & is_empty & Hfetch & Hempty).
  change (ymd2ord 2024 1 1) with 738886%Z in *.
  change (ymd2ord 2024 1 8) with 738893%Z in *.
  change (ymd2ord 2024 1 9) with 738894%Z.
  change (ymd2ord 2024 1 10) with 738895%Z.
  unfold backfill.
  change (normalize_date (default_start_date now) (DStr "2024-01-01"))
    with (@Ok date 738886%Z).
  change (normalize_date (default_end_date now) (DStr "2024-01-10"))
    with (@Ok date 738895%Z).
  unfold backfill_dates.
  change (Z.to_nat (738895 - 738886 + 1)) with 10%nat.
  simpl in Hfetch. simpl.
  change (Z.min (738886 + 7) 738895)%Z with 738893%Z.
  change (Z.min (738893 + 1 + 7) 738895)%Z with 738895%Z.
  change (738893 + 1)%Z with 738894%Z.
  rewrite Hfetch. simpl. rewrite Hempty. simpl.
  destruct (fetch symbols timeframe (TDatetime (combine 738894%Z time_min)) _ _)
    as [batch_data'|]; simpl; [|reflexivity].
  destruct (attr_empty batch_data'); reflexivity.
Qed.

(** With the first fetch not answered, the call ends on an exception
    after the first window. *)
(** When the first window is not answered, the run ends on it. *)
Lemma backfill_first_unanswered (start_date end_date : date_arg) (s e : date) :
  normalize_date (default_start_date now) start_date = Ok s ->
  normalize_date (default_end_date now) end_date = Ok e ->
  (s <= e)%Z -> (0 < s + 7 <= MAXORDINAL)%Z ->
  ~ answered num fetch symbols timeframe batch_size
      (window_between s (Z.min (s + 7) e)) ->
  exists ex,
    run start_date end_date
    = ([window_between s (Z.min (s + 7) e)], Some (Raise ex)).
Proof.
  intros Hs He Hse H7 Hno. unfold answered in Hno. simpl in Hno.
  unfold backfill. rewrite Hs, He. unfold backfill_dates.
  destruct (Z.to_nat (e - s + 1)) as [|fuel] eqn:Hfuel; [lia|].
  simpl. replace (s <=? e)%Z with true by (symmetry; apply Z.leb_le; lia).
  rewrite (date_add_days_in_range s 7 H7).
  unfold window_between.
  destruct (fetch symbols timeframe (TDatetime (combine s time_min)) _ _)
    as [batch_data|ex]; [|eauto].
  destruct (attr_empty batch_data) as [is_empty|ex] eqn:Hempty; [|eauto].
  exfalso. apply Hno. eauto.
Qed.

Lemma backfill_example_unanswered :
  ~ answered num fetch symbols timeframe batch_size
      (window_between (ymd2ord 2024 1 1) (ymd2ord 2024 1 8)) ->
  exists ex,
    run (DStr "2024-01-01") (DStr "2024-01-10")
    = ([window_between (ymd2ord 2024 1 1) (ymd2ord 2024 1 8)], Some (Raise ex)).
Proof.
  intros Hno. unfold answered in Hno.
  change (ymd2ord 2024 1 1) with 738886%Z in *.
  change (ymd2ord 2024 1 8) with 738893%Z in *.
  unfold backfill.
  change (normalize_date (default_start_date now) (DStr "2024-01-01"))
    with (@Ok date 738886%Z).
  change (normalize_date (default_end_date now) (DStr "2024-01-10"))
    with (@Ok date 738895%Z).
  unfold backfill_dates.
  change (Z.to_nat (738895 - 738886 + 1)) with 10%nat.
  simpl in Hno. simpl.
  change (Z.min (738886 + 7) 738895)%Z with 738893%Z.
  destruct (fetch symbols timeframe (TDatetime (combine 738886%Z time_min)) _ _)
    as [batch_data|ex]; simpl; [|eauto].
  destruct (attr_empty batch_data) as [is_empty|ex] eqn:Hempty; simpl; [|eauto].
  exfalso. apply Hno. eauto.
Qed.

(** C9.  When the fetch of a window requested by [backfill] raises, the
    call ends with that exception: nothing is returned, the failed window
    is the last one requested, and no window is requested twice. *)
Theorem backfill_fetch_failure (start_date end_date : date_arg) w ex :
  In w (windows_of (run start_date end_date)) ->
  fetch_fails num fetch symbols timeframe batch_size w ex ->
  outcome_of (run start_date end_date) = Some (Raise ex)
  /\ last (windows_of (run start_date end_date)) = Some w
  /\ NoDup (windows_of (run start_date end_date)).
Proof.
  unfold backfill, fetch_fails.
  destruct (normalize_date _ start_date) as [s|]; [|intros []].
  destruct (normalize_date _ end_date) as [e|]; [|intros []].
  pose proof (loop_fetch_failure (Z.to_nat (e - s + 1)) e s [] w ex) as Hfail.
  pose proof (backfill_windows_always s e) as (_ & _ & Hnodup).
  unfold backfill_dates, windows_of, outcome_of in *.
  destruct (backfill_loop _ _ _ _ _ _ _ _ _) as [ws r]. simpl in *.
  intros Hin Hw. destruct (Hfail Hin Hw) as [-> Hlast]. auto.
Qed.

(** C10.  The loop of [backfill] terminates for every pair of dates: the
    turns provided are enough whatever the fetches answer, more turns
    change nothing, each window begins the day after the previous
    [batch_end] and so later than the previous window began, and no turn
    is taken when [start_date > end_date]. *)
Theorem backfill_terminates :
  (forall start_date end_date, outcome_of (run start_date end_date) <> None)
  /\ (forall (s e : date) fuel,
        (Z.to_nat (e - s + 1) <= fuel)%nat ->
        backfill_loop num fetch symbols timeframe batch_size fuel e s []
        = run_dates s e)
  /\ (forall s e : date, advancing (windows_of (run_dates s e)))
  /\ (forall s e : date, (e < s)%Z -> run_dates s e = ([], Some (Ok []))).
Proof.
  split; [|split; [|split]].
  - intros start_date end_date. unfold backfill.
    destruct (normalize_date _ start_date) as [s|]; [|discriminate].
    destruct (normalize_date _ end_date) as [e|]; [|discriminate].
    pose proof (loop_terminates (Z.to_nat (e - s + 1)) e s [] (le_n _)) as H.
    unfold backfill_dates, outcome_of.
    destruct (backfill_loop _ _ _ _ _ _ _ _ _) as [ws [[all_data|ex]|]];
      simpl in *; congruence.
  - intros s e fuel Hfuel. unfold backfill_dates.
    apply loop_fuel_irrelevant; [apply le_n | exact Hfuel].
  - intros s e. eapply chain_advancing, backfill_dates_chain.
  - intros s e Hes. unfold backfill_dates. apply loop_exit. exact Hes.
Qed.

End Loop.

End BackfillFacts.

(** The run from 2024-01-01 to 2024-01-10 with a [fetch_bars] that answers
    every window. *)
Lemma backfill_windows_witness :
  (1 <= ymd2ord 2024 1 1)%Z
  /\ (ymd2ord 2024 1 1 <= ymd2ord 2024 1 10)%Z
  /\ (ymd2ord 2024 1 10 <= MAXORDINAL - 7)%Z
  /\ windows_of (backfill_dates Z Sample.fetch_one_row ["AAPL"] "1Min" 1000
                   (ymd2ord 2024 1 1) (ymd2ord 2024 1 10))
     = [window_between (ymd2ord 2024 1 1) (ymd2ord 2024 1 8);
        window_between (ymd2ord 2024 1 9) (ymd2ord 2024 1 10)]
  /\ ends_on (ymd2ord 2024 1 10)
       (windows_of (backfill_dates Z Sample.fetch_one_row ["AAPL"] "1Min" 1000
                      (ymd2ord 2024 1 1) (ymd2ord 2024 1 10))).
Proof.
  assert (H1 : (1 <= ymd2ord 2024 1 1)%Z) by (vm_compute; discriminate).
  assert (H2 : (ymd2ord 2024 1 1 <= ymd2ord 2024 1 10)%Z)
    by (vm_compute; discriminate).
  assert (H3 : (ymd2ord 2024 1 10 <= MAXORDINAL - 7)%Z)
    by (vm_compute; discriminate).
  split; [exact H1|]. split; [exact H2|]. split; [exact H3|].
  split; [vm_compute; reflexivity|].
  apply (BackfillFacts.backfill_windows Z Sample.fetch_one_row ["AAPL"] "1Min"
           1000 (ymd2ord 2024 1 1) (ymd2ord 2024 1 10) H1 H2 H3).
  intros w _. exists (Pandas Sample.one_bar), false. split; reflexivity.
Defined.

(** At the end of the calendar: from 9999-12-31 to 9999-12-31, with every
    fetch answered, no window is requested and so none ends on
    [end_date]. *)
Lemma backfill_windows_counterexample :
  (ymd2ord 9999 12 31 <= ymd2ord 9999 12 31)%Z
  /\ backfill_dates Z Sample.fetch_one_row ["AAPL"] "1Min" 1000
       (ymd2ord 9999 12 31) (ymd2ord 9999 12 31)
     = ([], Some (Raise OverflowError))
  /\ ~ ends_on (ymd2ord 9999 12 31)
         (windows_of (backfill_dates Z Sample.fetch_one_row ["AAPL"] "1Min" 1000
                        (ymd2ord 9999 12 31) (ymd2ord 9999 12 31))).
Proof.
  split; [vm_compute; discriminate|]. split; [reflexivity|].
  intros (w & Hlast & _). vm_compute in Hlast. discriminate.
Qed.

(** A run from 2024-01-01 to 2024-01-20 in which the second fetch fails. *)
Lemma backfill_fetch_failure_witness :
  In (window_between (ymd2ord 2024 1 9) (ymd2ord 2024 1 16))
     (windows_of (backfill Z Sample.sample_now Sample.fetch_down_from_jan_9
                    ["AAPL"] "1Min" 1000 (DStr "2024-01-01") (DStr "2024-01-20")))
  /\ fetch_fails Z Sample.fetch_down_from_jan_9 ["AAPL"] "1Min" 1000
       (window_between (ymd2ord 2024 1 9) (ymd2ord 2024 1 16))
       (RemoteError "503")
  /\ outcome_of (backfill Z Sample.sample_now Sample.fetch_down_from_jan_9
                   ["AAPL"] "1Min" 1000 (DStr "2024-01-01") (DStr "2024-01-20"))
     = Some (Raise (RemoteError "503"))
  /\ windows_of (backfill Z Sample.sample_now Sample.fetch_down_from_jan_9
                   ["AAPL"] "1Min" 1000 (DStr "2024-01-01") (DStr "2024-01-20"))
     = [window_between (ymd2ord 2024 1 1) (ymd2ord 2024 1 8);
        window_between (ymd2ord 2024 1 9) (ymd2ord 2024 1 16)].
Proof.
  assert (Hin : In (window_between (ymd2ord 2024 1 9) (ymd2ord 2024 1 16))
                  (windows_of
                     (backfill Z Sample.sample_now Sample.fetch_down_from_jan_9
                        ["AAPL"] "1Min" 1000
                        (DStr "2024-01-01") (DStr "2024-01-20"))))
    by (vm_compute; right; left; reflexivity).
  assert (Hw : fetch_fails Z Sample.fetch_down_from_jan_9 ["AAPL"] "1Min" 1000
                 (window_between (ymd2ord 2024 1 9) (ymd2ord 2024 1 16))
                 (RemoteError "503")) by reflexivity.
  split; [exact Hin|]. split; [exact Hw|].
  split; [|vm_compute; reflexivity].
  exact (proj1 (BackfillFacts.backfill_fetch_failure Z
                  Sample.fetch_down_from_jan_9 ["AAPL"] "1Min" 1000
                  Sample.sample_now (DStr "2024-01-01") (DStr "2024-01-20")
                  _ (RemoteError "503") Hin Hw)).
Defined.

Lemma backfill_terminates_witness :
  outcome_of (backfill Z Sample.sample_now Sample.fetch_one_row ["AAPL"] "1Min"
                1000 (DStr "2024-01-01") (DStr "2024-01-10")) <> None
  /\ (Z.to_nat (ymd2ord 2024 1 10 - ymd2ord 2024 1 1 + 1) <= 50)%nat
  /\ backfill_loop Z Sample.fetch_one_row ["AAPL"] "1Min" 1000 50
       (ymd2ord 2024 1 10) (ymd2ord 2024 1 1) []
     = backfill_dates Z Sample.fetch_one_row ["AAPL"] "1Min" 1000
         (ymd2ord 2024 1 1) (ymd2ord 2024 1 10)
  /\ (ymd2ord 2024 1 1 < ymd2ord 2024 1 10)%Z
  /\ backfill_dates Z Sample.fetch_one_row ["AAPL"] "1Min" 1000
       (ymd2ord 2024 1 10) (ymd2ord 2024 1 1)
     = ([], Some (Ok [])).
Proof.
  destruct (BackfillFacts.backfill_terminates Z Sample.fetch_one_row ["AAPL"]
              "1Min" 1000 Sample.sample_now) as (H1 & H2 & H3 & H4).
  assert (Hfuel : (Z.to_nat (ymd2ord 2024 1 10 - ymd2ord 2024 1 1 + 1) <= 50)%nat)
    by (vm_compute; lia).
  assert (Hlt : (ymd2ord 2024 1 1 < ymd2ord 2024 1 10)%Z)
    by (vm_compute; reflexivity).
  split; [apply H1|]. split; [exact Hfuel|]. split; [apply H2; exact Hfuel|].
  split; [exact Hlt|]. apply H4. exact Hlt.
Defined.

(** ** [AlpacaClient.get_latest_quotes] *)

Module ClientFacts.

Section Quotes.

Variables (num sdk_quote pyval : Type).
Variable api_get_latest_quote : string -> result sdk_quote.
Variable quote_attr : sdk_quote -> string -> result pyval.
Variable py_float : pyval -> result num.
Variable py_int : pyval -> result Z.

Abbreviation fetch := (fetch_quote api_get_latest_quote quote_attr py_float py_int).
Abbreviation loop := (quotes_loop api_get_latest_quote quote_attr py_float py_int).
Abbreviation get_quotes :=
  (get_latest_quotes api_get_latest_quote quote_attr py_float py_int).

(** The loop stops at the first symbol whose quote cannot be built. *)
Lemma quotes_loop_raises symbols :
  forall quotes e,
    loop symbols quotes = Raise e <->
    exists before symbol after,
      symbols = before ++ symbol :: after
      /\ fetch symbol = Raise e
      /\ Forall (fun s => returns (fetch s)) before.
Proof.
  induction symbols as [|symbol rest IH]; intros quotes e; simpl.
  - split; [discriminate|].
    intros (before & s & after & Heq & _). destruct before; discriminate.
  - destruct (fetch symbol) as [snapshot|e0] eqn:Hf; simpl.
    + rewrite IH. split.
      * intros (before & s & after & -> & Hs & Hbefore).
        exists (symbol :: before), s, after.
        split; [reflexivity|]. split; [exact Hs|].
        constructor; [exists snapshot; exact Hf | exact Hbefore].
      * intros (before & s & after & Heq & Hs & Hbefore).
        destruct before as [|b before]; simpl in Heq.
        -- injection Heq as <- _. congruence.
        -- injection Heq as <- ->. inversion Hbefore; subst.
           exists before, s, after. auto.
    + split.
      * intros [= <-]. exists [], symbol, rest.
        split; [reflexivity|]. split; [exact Hf | constructor].
      * intros (before & s & after & Heq & Hs & Hbefore).
        destruct before as [|b before]; simpl in Heq.
        -- injection Heq as <- _. congruence.
        -- injection Heq as <- _. inversion Hbefore as [|? ? [q Hq] ?]; subst.
           congruence.
Qed.

(** When the loop runs through, the dict holds the snapshot of every
    symbol of the list and is unchanged elsewhere. *)
Lemma quotes_loop_returns symbols :
  forall quotes m,
    loop symbols quotes = Ok m ->
    (forall s, In s symbols -> exists q, fetch s = Ok q /\ m !! s = Some q)
    /\ (forall s, ~ In s symbols -> m !! s = quotes !! s).
Proof.
  induction symbols as [|symbol rest IH]; intros quotes m; simpl.
  - intros [= <-]. split; [intros s [] | reflexivity].
  - destruct (fetch symbol) as [snapshot|e0] eqn:Hf; simpl; [|discriminate].
    intros Hloop. destruct (IH _ _ Hloop) as [Hin Hout]. split.
    + intros s [<- | Hs]; [|auto].
      destruct (In_dec string_dec symbol rest) as [Hr | Hr]; [auto|].
      exists snapshot. split; [exact Hf|].
      rewrite (Hout _ Hr). apply lookup_insert_eq.
    + intros s Hs. rewrite Hout by tauto.
      apply lookup_insert_ne. tauto.
Qed.

(** What lines 99-105 put into the dict for the SDK's quote [q]: the five
    attributes [bp], [bs], [ap], [as_] and [t], the prices through
    [float], the sizes through [int], the time as it is. *)
Abbreviation displays q snap :=
  (exists bp bs ap as_,
     quote_attr q "bp" = Ok bp /\ py_float bp = Ok (bid_price snap)
     /\ quote_attr q "bs" = Ok bs /\ py_int bs = Ok (bid_size snap)
     /\ quote_attr q "ap" = Ok ap /\ py_float ap = Ok (ask_price snap)
     /\ quote_attr q "as_" = Ok as_ /\ py_int as_ = Ok (ask_size snap)
     /\ quote_attr q "t" = Ok (timestamp snap)).

(** [snap] is the snapshot of [symbol]: the SDK answers with a quote and
    lines 99-105 display it as [snap]. *)
Abbreviation quoted symbol snap :=
  (exists q, api_get_latest_quote symbol = Ok q /\ displays q snap).

(** The exception of a turn that fails: that of the SDK call, or that of
    the first of the nine steps of lines 99-105, in the order in which the
    dict display evaluates them, that raises. *)
Abbreviation fails_with symbol e :=
  (api_get_latest_quote symbol = Raise e
   \/ exists q, api_get_latest_quote symbol = Ok q /\
      (quote_attr q "bp" = Raise e
       \/ exists bp, quote_attr q "bp" = Ok bp /\
       (py_float bp = Raise e
        \/ exists bid_price, py_float bp = Ok bid_price /\
        (quote_attr q "bs" = Raise e
         \/ exists bs, quote_attr q "bs" = Ok bs /\
         (py_int bs = Raise e
          \/ exists bid_size, py_int bs = Ok bid_size /\
          (quote_attr q "ap" = Raise e
           \/ exists ap, quote_attr q "ap" = Ok ap /\
           (py_float ap = Raise e
            \/ exists ask_price, py_float ap = Ok ask_price /\
            (quote_attr q "as_" = Raise e
             \/ exists as_, quote_attr q "as_" = Ok as_ /\
             (py_int as_ = Raise e
              \/ exists ask_size, py_int as_ = Ok ask_size /\
                 quote_attr q "t" = Raise e))))))))).

Lemma quote_snapshot_displays q snap :
  quote_snapshot quote_attr py_float py_int q = Ok snap <-> displays q snap.
Proof.
  unfold quote_snapshot. split.
  - destruct (quote_attr q "bp") as [bp|] eqn:Hbp; [simpl|discriminate].
    destruct (py_float bp) as [bid|] eqn:Hbid; [simpl|discriminate].
    destruct (quote_attr q "bs") as [bs|] eqn:Hbs; [simpl|discriminate].
    destruct (py_int bs) as [bsz|] eqn:Hbsz; [simpl|discriminate].
    destruct (quote_attr q "ap") as [ap|] eqn:Hap; [simpl|discriminate].
    destruct (py_float ap) as [ask|] eqn:Hask; [simpl|discriminate].
    destruct (quote_attr q "as_") as [as_|] eqn:Has; [simpl|discriminate].
    destruct (py_int as_) as [asz|] eqn:Hasz; [simpl|discriminate].
    destruct (quote_attr q "t") as [t|] eqn:Ht; [simpl|discriminate].
    intros [= <-]. exists bp, bs, ap, as_. simpl. auto 10.
  - intros (bp & bs & ap & as_ & Hbp & Hbid & Hbs & Hbsz & Hap & Hask
            & Has & Hasz & Ht).
    rewrite Hbp; simpl. rewrite Hbid; simpl. rewrite Hbs; simpl.
    rewrite Hbsz; simpl. rewrite Hap; simpl. rewrite Hask; simpl.
    rewrite Has; simpl. rewrite Hasz; simpl. rewrite Ht; simpl.
    destruct snap; reflexivity.
Qed.

Lemma fetch_quote_quoted symbol snap :
  fetch symbol = Ok snap <-> quoted symbol snap.
Proof.
  unfold fetch_quote. split.
  - destruct (api_get_latest_quote symbol) as [q|] eqn:Hq; [simpl|discriminate].
    intros H. exists q. split; [reflexivity|].
    apply quote_snapshot_displays. exact H.
  - intros (q & -> & H). simpl. apply quote_snapshot_displays. exact H.
Qed.

Lemma fetch_quote_returns symbol :
  returns (fetch symbol) <-> exists snap, quoted symbol snap.
Proof.
  split; intros [snap H]; exists snap; apply fetch_quote_quoted; exact H.
Qed.

Lemma fetch_quote_raises symbol :
  raises (fetch symbol) <-> ~ exists snap, quoted symbol snap.
Proof.
  rewrite <- fetch_quote_returns. unfold raises, returns.
  destruct (fetch symbol) as [snap|e].
  - split; [intros [e He]; discriminate | intros H; destruct H; eauto].
  - split; [intros _ [snap Hs]; discriminate | eauto].
Qed.

Lemma fetch_quote_fails_with symbol e :
  fetch symbol = Raise e <-> fails_with symbol e.
Proof.
  unfold fetch_quote, quote_snapshot.
  destruct (api_get_latest_quote symbol) as [q|e0]; simpl;
    [|split; [intros [= <-]; left; reflexivity
             | intros [H | (q & H & _)]; congruence]].
  split.
  - intros H. right. exists q. split; [reflexivity|].
    destruct (quote_attr q "bp") as [bp|]; simpl in H; [right|left; congruence].
    exists bp. split; [reflexivity|].
    destruct (py_float bp) as [bid|]; simpl in H; [right|left; congruence].
    exists bid. split; [reflexivity|].
    destruct (quote_attr q "bs") as [bs|]; simpl in H; [right|left; congruence].
    exists bs. split; [reflexivity|].
    destruct (py_int bs) as [bsz|]; simpl in H; [right|left; congruence].
    exists bsz. split; [reflexivity|].
    destruct (quote_attr q "ap") as [ap|]; simpl in H; [right|left; congruence].
    exists ap. split; [reflexivity|].
    destruct (py_float ap) as [ask|]; simpl in H; [right|left; congruence].
    exists ask. split; [reflexivity|].
    destruct (quote_attr q "as_") as [as_|]; simpl in H; [right|left; congruence].
    exists as_. split; [reflexivity|].
    destruct (py_int as_) as [asz|]; simpl in H; [right|left; congruence].
    exists asz. split; [reflexivity|].
    destruct (quote_attr q "t") as [t|]; simpl in H; congruence.
  - intros [H | (q' & [= <-] & H)]; [discriminate|].
    destruct H as [-> | (bp & -> & H)]; [reflexivity | simpl].
    destruct H as [-> | (bid & -> & H)]; [reflexivity | simpl].
    destruct H as [-> | (bs & -> & H)]; [reflexivity | simpl].
    destruct H as [-> | (bsz & -> & H)]; [reflexivity | simpl].
    destruct H as [-> | (ap & -> & H)]; [reflexivity | simpl].
    destruct H as [-> | (ask & -> & H)]; [reflexivity | simpl].
    destruct H as [-> | (as_ & -> & H)]; [reflexivity | simpl].
    destruct H as [-> | (asz & -> & H)]; [reflexivity | simpl].
    rewrite H. reflexivity.
Qed.

(** C8.  [get_latest_quotes] raises exactly when some symbol of the list
    has no snapshot: the SDK call for it raises, or one of the five
    attributes [bp], [bs], [ap], [as_], [t] of the quote cannot be read,
    or a price or a size cannot be converted.  It then hands on the
    exception of the first such symbol (that of the SDK call or of the
    first step of lines 99-105 that raises) instead of a mapping.  When
    every symbol has a snapshot it returns a mapping whose keys are the
    requested symbols, each mapped to the snapshot of lines 99-105:
    [float(quote.bp)], [int(quote.bs)], [float(quote.ap)],
    [int(quote.as_)] and [quote.t]. *)
Theorem get_latest_quotes_all_or_nothing (symbols : list string) :
  (raises (get_quotes symbols)
   <-> exists s, In s symbols /\ ~ exists snap, quoted s snap)
  /\ (forall before symbol after e,
        symbols = before ++ symbol :: after ->
        (forall s, In s before -> exists snap, quoted s snap) ->
        fails_with symbol e ->
        get_quotes symbols = Raise e)
  /\ ((forall s, In s symbols -> exists snap, quoted s snap) ->
      exists m,
        get_quotes symbols = Ok m
        /\ (forall s, In s symbols ->
              exists snap, quoted s snap /\ m !! s = Some snap)
        /\ (forall s, is_Some (m !! s) <-> In s symbols)).
Proof.
  unfold get_latest_quotes. rewrite log_and_reraise_id.
  split; [split|split].
  - intros (e & He). apply quotes_loop_raises in He
      as (before & s & after & -> & Hs & _).
    exists s. split; [apply in_or_app; right; left; reflexivity|].
    apply fetch_quote_raises. exists e. exact Hs.
  - intros (s & Hs & Hnone). apply fetch_quote_raises in Hnone as [e He].
    destruct (loop symbols ∅) as [m|e0] eqn:Hloop; [|exists e0; reflexivity].
    destruct (quotes_loop_returns _ _ _ Hloop) as [Hin _].
    destruct (Hin s Hs) as (q & Hq & _). congruence.
  - intros before symbol after e Heq Hbefore Hs.
    apply quotes_loop_raises. exists before, symbol, after.
    split; [exact Heq|]. split; [apply fetch_quote_fails_with; exact Hs|].
    apply List.Forall_forall. intros s Hin.
    apply fetch_quote_returns. auto.
  - intros Hall.
    destruct (loop symbols ∅) as [m|e0] eqn:Hloop.
    + destruct (quotes_loop_returns _ _ _ Hloop) as [Hin Hout].
      exists m. split; [reflexivity|]. split.
      * intros s Hs. destruct (Hin s Hs) as (snap & Hf & Hm).
        exists snap. split; [apply fetch_quote_quoted; exact Hf | exact Hm].
      * intros s. split.
        -- intros Hsome.
           destruct (In_dec string_dec s symbols) as [H|H]; [exact H|].
           rewrite (Hout s H), lookup_empty in Hsome.
           destruct Hsome as [? ?]. discriminate.
        -- intros Hs. destruct (Hin s Hs) as (q & _ & Hq). eauto.
    + apply quotes_loop_raises in Hloop as (before & s & after & -> & Hs & _).
      destruct (Hall s) as [snap Hsnap].
      * apply in_or_app. right. left. reflexivity.
      * apply fetch_quote_quoted in Hsnap. congruence.
Qed.

End Quotes.

End ClientFacts.

(** The quotes of [AAPL], [IBM] and [AAPL] again can all be fetched, and
    the mapping holds for each the five values of lines 99-105; with
    [DOWN] in second place the call raises what the SDK raised, and with
    [ODD] in second place what reading [bs] raised. *)
Lemma get_latest_quotes_witness :
  (exists m,
     get_latest_quotes Sample.api_quote Sample.quote_field
       Sample.float_of Sample.int_of ["AAPL"; "IBM"; "AAPL"] = Ok m
     /\ m !! "AAPL" = Some (mk_quote 4010 402 4030 404 405)%Z
     /\ m !! "IBM" = Some (mk_quote 3010 302 3030 304 305)%Z
     /\ (forall s, is_Some (m !! s) <-> In s ["AAPL"; "IBM"; "AAPL"]))
  /\ raises (get_latest_quotes Sample.api_quote Sample.quote_field
               Sample.float_of Sample.int_of ["AAPL"; "DOWN"; "MSFT"])
  /\ get_latest_quotes Sample.api_quote Sample.quote_field
       Sample.float_of Sample.int_of ["AAPL"; "DOWN"; "MSFT"]
     = Raise (RemoteError "503")
  /\ get_latest_quotes Sample.api_quote Sample.quote_field
       Sample.float_of Sample.int_of ["AAPL"; "ODD"; "DOWN"]
     = Raise (AttributeError "Quote" "bs").
Proof.
  destruct (ClientFacts.get_latest_quotes_all_or_nothing Z string Z
              Sample.api_quote Sample.quote_field Sample.float_of Sample.int_of
              ["AAPL"; "IBM"; "AAPL"])
    as (_ & _ & Hok).
  destruct (ClientFacts.get_latest_quotes_all_or_nothing Z string Z
              Sample.api_quote Sample.quote_field Sample.float_of Sample.int_of
              ["AAPL"; "DOWN"; "MSFT"])
    as (Hbad & Hfirst & _).
  destruct (ClientFacts.get_latest_quotes_all_or_nothing Z string Z
              Sample.api_quote Sample.quote_field Sample.float_of Sample.int_of
              ["AAPL"; "ODD"; "DOWN"])
    as (_ & Hodd & _).
  assert (Hsnap : forall s, s = "AAPL" \/ s = "IBM" ->
            exists snap, exists q,
              Sample.api_quote s = Ok q
              /\ exists bp bs ap as_,
                   Sample.quote_field q "bp" = Ok bp
                   /\ Sample.float_of bp = Ok (bid_price snap)
                   /\ Sample.quote_field q "bs" = Ok bs
                   /\ Sample.int_of bs = Ok (bid_size snap)
                   /\ Sample.quote_field q "ap" = Ok ap
                   /\ Sample.float_of ap = Ok (ask_price snap)
                   /\ Sample.quote_field q "as_" = Ok as_
                   /\ Sample.int_of as_ = Ok (ask_size snap)
                   /\ Sample.quote_field q "t" = Ok (timestamp snap)).
  { intros s [-> | ->].
    - exists (mk_quote 4010 402 4030 404 405)%Z. eexists.
      split; [reflexivity|].
      exists 401%Z, 402%Z, 403%Z, 404%Z. repeat split; reflexivity.
    - exists (mk_quote 3010 302 3030 304 305)%Z. eexists.
      split; [reflexivity|].
      exists 301%Z, 302%Z, 303%Z, 304%Z. repeat split; reflexivity. }
  assert (Hall : forall s, In s ["AAPL"; "IBM"; "AAPL"] ->
            exists snap, exists q,
              Sample.api_quote s = Ok q
              /\ exists bp bs ap as_,
                   Sample.quote_field q "bp" = Ok bp
                   /\ Sample.float_of bp = Ok (bid_price snap)
                   /\ Sample.quote_field q "bs" = Ok bs
                   /\ Sample.int_of bs = Ok (bid_size snap)
                   /\ Sample.quote_field q "ap" = Ok ap
                   /\ Sample.float_of ap = Ok (ask_price snap)
                   /\ Sample.quote_field q "as_" = Ok as_
                   /\ Sample.int_of as_ = Ok (ask_size snap)
                   /\ Sample.quote_field q "t" = Ok (timestamp snap)).
  { intros s [<- | [<- | [<- | []]]]; apply Hsnap; auto. }
  assert (Hvalue : forall s (m : gmap string (quote Z Z)) expected,
            (s = "AAPL" /\ expected = mk_quote 4010 402 4030 404 405)%Z
            \/ (s = "IBM" /\ expected = mk_quote 3010 302 3030 304 305)%Z ->
            (exists snap,
               (exists q,
                  Sample.api_quote s = Ok q
                  /\ exists bp bs ap as_,
                       Sample.quote_field q "bp" = Ok bp
                       /\ Sample.float_of bp = Ok (bid_price snap)
                       /\ Sample.quote_field q "bs" = Ok bs
                       /\ Sample.int_of bs = Ok (bid_size snap)
                       /\ Sample.quote_field q "ap" = Ok ap
                       /\ Sample.float_of ap = Ok (ask_price snap)
                       /\ Sample.quote_field q "as_" = Ok as_
                       /\ Sample.int_of as_ = Ok (ask_size snap)
                       /\ Sample.quote_field q "t" = Ok (timestamp snap))
               /\ m !! s = Some snap) ->
            m !! s = Some expected).
  { intros s m expected Hs (snap & (q & Hq & bp & bs & ap & as_ & Hbp & Hbid & Hbs
                           & Hbsz & Hap & Hask & Has & Hasz & Ht) & Hm).
    rewrite Hm. f_equal. destruct snap as [b bz a az t]. simpl in *.
    destruct Hs as [[-> ->] | [-> ->]];
      injection Hq as <-;
      injection Hbp as <-; injection Hbs as <-; injection Hap as <-;
      injection Has as <-; injection Hbid as <-; injection Hbsz as <-;
      injection Hask as <-; injection Hasz as <-; injection Ht as <-;
      reflexivity. }
  destruct (Hok Hall) as (m & Hm & Hin & Hdom).
  split.
  { exists m. split; [exact Hm|].
    split; [apply Hvalue; [left; split; reflexivity
                          | apply Hin; left; reflexivity]|].
    split; [apply Hvalue; [right; split; reflexivity
                          | apply Hin; right; left; reflexivity]|].
    exact Hdom. }
  split.
  { apply (proj2 Hbad). exists "DOWN". split; [right; left; reflexivity|].
    intros (snap & q & Hq & _). discriminate. }
  split.
  { apply (Hfirst ["AAPL"] "DOWN" ["MSFT"]); [reflexivity | | left; reflexivity].
    intros s [<- | []]. apply Hsnap. left. reflexivity. }
  apply (Hodd ["AAPL"] "ODD" ["DOWN"]); [reflexivity | | ].
  - intros s [<- | []]. apply Hsnap. left. reflexivity.
  - right. exists "ODD". split; [reflexivity|].
    right. exists 301%Z. split; [reflexivity|].
    right. exists 3010%Z. split; [reflexivity|].
    left. reflexivity.
Defined.

(** ** [AlpacaConnector.fetch_bars] *)

Module FetchBarsFacts.

Section FetchBars.

Variable num : Type.
Variable api_get_bars :
  list string -> string -> date * Z -> date * Z -> option Z -> result (pandas num).
Variable now : datetime.

Abbreviation client_get_bars := (get_bars api_get_bars now).
Abbreviation fetch := (fetch_bars num api_get_bars now).

(** [get_bars] hands out either the empty polars frame or a pandas frame
    with rows. *)
Lemma get_bars_returns symbols timeframe start end_ limit f :
  client_get_bars symbols timeframe start end_ limit = Ok f ->
  f = polars_DataFrame \/ exists df, f = Pandas df /\ pd_empty df = false.
Proof.
  unfold get_bars.
  destruct (match start with TNone => _ | TStr s => _ | TDatetime dt => _ end);
    simpl; [|discriminate].
  destruct (match end_ with TNone => _ | TStr s => _ | TDatetime dt => _ end);
    simpl; [|discriminate].
  destruct (api_get_bars _ _ _ _ _) as [df|]; simpl; [|discriminate].
  destruct (pd_empty df) eqn:E; intros [= <-]; eauto.
Qed.

(** No bars: [bars.empty] is asked of a polars frame. *)
Lemma fetch_bars_no_rows symbols timeframe start end_ limit :
  client_get_bars symbols timeframe start end_ limit = Ok polars_DataFrame ->
  fetch symbols timeframe start end_ limit
  = Raise (AttributeError "DataFrame" "empty").
Proof. unfold fetch_bars. intros ->. reflexivity. Qed.

Lemma pd_reset_index_positional (df bars : pandas num) :
  pd_reset_index df = Ok bars -> pd_index bars = [].
Proof.
  unfold pd_reset_index.
  destruct (insert_levels _ _); simpl; [|discriminate].
  intros [= <-]. reflexivity.
Qed.

(** On a frame with a positional index the check of line 42 never finds a
    column present: [bars.column] either does not exist or is a series
    whose index holds positions. *)
Lemma check_required_positional (bars : pandas num) col rest :
  pd_index bars = [] ->
  check_required num (col :: rest) bars
  = match find_column "column" (pd_columns bars) with
    | Some _ => Ok false
    | None => Raise (AttributeError "DataFrame" "column")
    end.
Proof.
  intros Hidx. simpl. unfold pd_getattr.
  destruct (find_column "column" (pd_columns bars)); simpl; [|reflexivity].
  unfold series_contains. simpl. rewrite Hidx. reflexivity.
Qed.

(** Bars: line 42 raises, unless the answer happens to have a column
    named [column], in which case the empty frame is returned. *)
Lemma fetch_bars_rows symbols timeframe start end_ limit df bars :
  client_get_bars symbols timeframe start end_ limit = Ok (Pandas df) ->
  pd_empty df = false ->
  pd_reset_index df = Ok bars ->
  fetch symbols timeframe start end_ limit
  = match find_column "column" (pd_columns bars) with
    | Some _ => Ok polars_DataFrame
    | None => Raise (AttributeError "DataFrame" "column")
    end.
Proof.
  intros Hget Hrows Hreset. unfold fetch_bars.
  rewrite log_and_reraise_id, Hget. cbn [bind as_pandas].
  rewrite Hrows, Hreset. cbn [bind].
  unfold required_columns.
  rewrite check_required_positional
    by (eapply pd_reset_index_positional; eauto).
  destruct (find_column "column" (pd_columns bars)); reflexivity.
Qed.

(** Whatever the SDK answers, [fetch_bars] returns no row. *)
Lemma fetch_bars_never_returns_rows symbols timeframe start end_ limit f :
  fetch symbols timeframe start end_ limit = Ok f -> f = polars_DataFrame.
Proof.
  destruct (client_get_bars symbols timeframe start end_ limit) as [g|e] eqn:Hget.
  - destruct (get_bars_returns _ _ _ _ _ _ Hget) as [-> | (df & -> & Hrows)].
    + rewrite (fetch_bars_no_rows _ _ _ _ _ Hget). discriminate.
    + destruct (pd_reset_index df) as [bars|e] eqn:Hreset.
      * rewrite (fetch_bars_rows _ _ _ _ _ _ _ Hget Hrows Hreset).
        destruct (find_column _ _); [congruence | discriminate].
      * unfold fetch_bars. rewrite Hget. simpl. rewrite Hrows, Hreset.
        discriminate.
  - unfold fetch_bars. rewrite Hget. discriminate.
Qed.

(** Lines 46-50 on a frame that has the six columns: the six columns in
    the order of [required_columns], then [timeframe], [source] and
    [fetched_at], on as many rows. *)
Lemma select_columns_names wanted : forall (cols sel : list (column num)),
  select_columns wanted cols = Ok sel -> names sel = wanted.
Proof.
  induction wanted as [|n rest IH]; intros cols sel; simpl.
  - intros [= <-]. reflexivity.
  - destruct (find_column n cols); [|discriminate].
    destruct (select_columns rest cols) as [more|] eqn:Hmore; simpl; [|discriminate].
    intros [= <-]. simpl. f_equal. eauto.
Qed.

Lemma names_assign_column name vs : forall cols : list (column num),
  names (assign_column name vs cols)
  = if has_name name cols then names cols else names cols ++ [name].
Proof.
  induction cols as [|[n old] rest IH]; simpl; [reflexivity|].
  unfold has_name in *. simpl.
  destruct (String.eqb name n) eqn:E; simpl; [reflexivity|].
  rewrite IH. destruct (existsb _ _); reflexivity.
Qed.

Lemma format_bars_columns timeframe (bars out : pandas num) :
  format_bars num now timeframe bars = Ok out ->
  names (pd_columns out)
  = ["symbol"; "timestamp"; "open"; "high"; "low"; "close";
     "timeframe"; "source"; "fetched_at"]
  /\ pd_nrows out = pd_nrows bars.
Proof.
  unfold format_bars, pd_getitem_list.
  destruct (select_columns required_columns (pd_columns bars)) as [sel|] eqn:Hsel;
    simpl; [|discriminate].
  intros [= <-]. split; [|reflexivity]. simpl.
  apply select_columns_names in Hsel.
  repeat (rewrite names_assign_column; unfold has_name).
  rewrite Hsel. reflexivity.
Qed.

End FetchBars.

End FetchBarsFacts.

(** C2.  [backfill] with [start_date="2024-01-01"] and
    [end_date="2024-01-10"] on the connector's own [fetch_bars]: whatever
    the SDK answers, the window 2024-01-01 .. 2024-01-08 is requested, the
    call ends there on an exception, and the window
    2024-01-09 .. 2024-01-10 is never requested. *)
Theorem backfill_example_on_own_fetch_bars
    (num : Type)
    (api_get_bars : list string -> string -> date * Z -> date * Z -> option Z ->
                    result (pandas num))
    (now : datetime) (symbols : list string) (timeframe : string)
    (batch_size : Z) :
  exists ex,
    backfill num now (fetch_bars num api_get_bars now) symbols timeframe
      batch_size (DStr "2024-01-01") (DStr "2024-01-10")
    = ([window_between (ymd2ord 2024 1 1) (ymd2ord 2024 1 8)], Some (Raise ex)).
Proof.
  apply BackfillFacts.backfill_example_unanswered.
  intros (batch_data & is_empty & Hfetch & Hempty).
  apply FetchBarsFacts.fetch_bars_never_returns_rows in Hfetch. subst batch_data.
  discriminate.
Qed.

(** C1.  [backfill] on the connector's own [fetch_bars], over a range of
    more than 8 days: whatever the SDK answers, one window is requested,
    from the midnight of [start_date] to the last instant of the seventh
    day after it, and the call ends there on an exception.  The windows
    that were to follow it, from the midnight after it up to [end_date],
    are never requested, so the last window requested does not end on
    [end_date]. *)
Theorem backfill_windows_on_own_fetch_bars
    (num : Type)
    (api_get_bars : list string -> string -> date * Z -> date * Z -> option Z ->
                    result (pandas num))
    (now : datetime) (symbols : list string) (timeframe : string)
    (batch_size : Z) (start_date end_date : date_arg) (s e : date) :
  normalize_date (default_start_date now) start_date = Ok s ->
  normalize_date (default_end_date now) end_date = Ok e ->
  (1 <= s)%Z -> (s + 7 < e)%Z -> (e <= MAXORDINAL)%Z ->
  exists ex,
    backfill num now (fetch_bars num api_get_bars now) symbols timeframe
      batch_size start_date end_date
    = ([window_between s (s + 7)%Z], Some (Raise ex))
    /\ ~ ends_on e
          (windows_of
             (backfill num now (fetch_bars num api_get_bars now) symbols
                timeframe batch_size start_date end_date)).
Proof.
  intros Hs He H1 Hlong Hmax.
  destruct (BackfillFacts.backfill_first_unanswered num
              (fetch_bars num api_get_bars now) symbols timeframe batch_size
              now start_date end_date s e Hs He) as [ex Hrun]; [lia | lia | |].
  - intros (batch_data & is_empty & Hfetch & Hempty).
    apply FetchBarsFacts.fetch_bars_never_returns_rows in Hfetch.
    subst batch_data. discriminate.
  - replace (Z.min (s + 7) e) with (s + 7)%Z in Hrun by lia.
    exists ex. split; [exact Hrun|].
    rewrite Hrun. intros (w & Hlast & Hend).
    injection Hlast as <-. injection Hend as Hend. lia.
Qed.

(** From 2024-01-01 to 2024-01-10 with an SDK that answers every request
    with one bar. *)
Lemma backfill_windows_on_own_fetch_bars_witness :
  exists ex,
    backfill Z Sample.sample_now
      (fetch_bars Z (Sample.api_always Sample.one_bar) Sample.sample_now)
      ["AAPL"] "1Min" 1000 (DStr "2024-01-01") (DStr "2024-01-10")
    = ([window_between (ymd2ord 2024 1 1) (ymd2ord 2024 1 1 + 7)%Z],
       Some (Raise ex))
    /\ ~ ends_on (ymd2ord 2024 1 10)
          (windows_of
             (backfill Z Sample.sample_now
                (fetch_bars Z (Sample.api_always Sample.one_bar)
                   Sample.sample_now)
                ["AAPL"] "1Min" 1000 (DStr "2024-01-01") (DStr "2024-01-10"))).
Proof.
  apply (backfill_windows_on_own_fetch_bars Z (Sample.api_always Sample.one_bar)
           Sample.sample_now ["AAPL"] "1Min" 1000
           (DStr "2024-01-01") (DStr "2024-01-10")
           (ymd2ord 2024 1 1) (ymd2ord 2024 1 10)).
  - reflexivity.
  - reflexivity.
  - vm_compute. discriminate.
  - vm_compute. reflexivity.
  - vm_compute. discriminate.
Defined.

(** C3.  The SDK answers a request for [AAPL] with no bar, or with one bar
    that lacks the column [close]: [fetch_bars] raises [AttributeError]
    in both cases and returns no table. *)
Theorem fetch_bars_no_rows_or_missing_column :
  fetch_bars Z (Sample.api_always Sample.no_bars) Sample.sample_now
    ["AAPL"] "1Min" TNone TNone None
  = Raise (AttributeError "DataFrame" "empty")
  /\ fetch_bars Z (Sample.api_always Sample.one_bar_without_close)
       Sample.sample_now ["AAPL"] "1Min" TNone TNone None
     = Raise (AttributeError "DataFrame" "column").
Proof. split; reflexivity. Qed.

(** C4.  The SDK answers a request for [AAPL] with one bar that has every
    required column: [fetch_bars] raises [AttributeError] at line 42 and
    returns no row, although lines 46-50 would build the nine columns from
    this very answer. *)
Theorem fetch_bars_complete_answer :
  fetch_bars Z (Sample.api_always Sample.one_bar) Sample.sample_now
    ["AAPL"] "1Min" TNone TNone None
  = Raise (AttributeError "DataFrame" "column")
  /\ exists bars out,
       pd_reset_index Sample.one_bar = Ok bars
       /\ format_bars Z Sample.sample_now "1Min" bars = Ok out
       /\ names (pd_columns out)
          = ["symbol"; "timestamp"; "open"; "high"; "low"; "close";
             "timeframe"; "source"; "fetched_at"]
       /\ pd_nrows out = 1%nat.
Proof.
  split; [reflexivity|].
  eexists _, _. split; [reflexivity|]. split; [reflexivity|].
  split; reflexivity.
Qed.

(** ** [AlpacaConnector.get_tradable_symbols] *)

Module TradableFacts.

Section Tradable.

Variable num : Type.
Variable api_get_bars :
  list string -> string -> date * Z -> date * Z -> option Z -> result (pandas num).
Variable api_list_assets : string -> string -> result (list sdk_asset).
Variable now : datetime.
Variable mean : list num -> num.
Variable ge : num -> num -> bool.
Variables (min_price min_volume : num).

Abbreviation passes :=
  (fun symbol => symbol_passes num api_get_bars now mean ge symbol
                   min_price min_volume).
Abbreviation body :=
  (tradable_body num api_get_bars now mean ge min_price min_volume).
Abbreviation loop :=
  (tradable_loop num api_get_bars now mean ge min_price min_volume).
Abbreviation keeps :=
  (appended num api_get_bars now mean ge min_price min_volume).

(** The call never returns a list: it raises what [get_assets] raised, or
    [UnboundLocalError] at line 159. *)
Lemma get_tradable_symbols_raises status asset_class :
  get_tradable_symbols num api_get_bars api_list_assets now mean ge
    status asset_class min_price min_volume
  = match api_list_assets status asset_class with
    | Ok _ => Raise (UnboundLocalError "asset")
    | Raise e => Raise e
    end.
Proof.
  unfold get_tradable_symbols, get_assets.
  destruct (api_list_assets status asset_class); reflexivity.
Qed.

(** One turn of the loop appends the symbol or leaves the list as it is. *)
Lemma tradable_body_appended a acc :
  body a acc = if keeps a then acc ++ [a_symbol a] else acc.
Proof.
  unfold tradable_body, appended.
  destruct (a_tradable a); simpl; [|reflexivity].
  destruct (isalnum (a_symbol a)); simpl; [|reflexivity].
  destruct (passes (a_symbol a)) as [[|]|]; reflexivity.
Qed.

(** Run over a list of assets, the loop appends, in order, the symbols of
    the assets that pass. *)
Lemma tradable_loop_filter iterable : forall acc,
  loop iterable acc = acc ++ map a_symbol (List.filter keeps iterable).
Proof.
  induction iterable as [|a rest IH]; intros acc; simpl.
  - rewrite app_nil_r. reflexivity.
  - rewrite IH, tradable_body_appended.
    destruct (keeps a); simpl; [|reflexivity].
    rewrite <- app_assoc. reflexivity.
Qed.

(** What passing means on an answer with rows: both means reach their
    thresholds. *)
Lemma symbol_passes_thresholds symbol df close volume closes volumes :
  get_bars api_get_bars now [symbol] "1Min" TNone TNone (Some 5%Z)
  = Ok (Pandas df) ->
  pd_empty df = false ->
  find_column "close" (pd_columns df) = Some close ->
  find_column "volume" (pd_columns df) = Some volume ->
  numbers close = Some closes ->
  numbers volume = Some volumes ->
  passes symbol
  = Ok (ge (mean closes) min_price && ge (mean volumes) min_volume).
Proof.
  intros Hget Hrows Hclose Hvolume Hc Hv.
  unfold symbol_passes. rewrite Hget. cbn [bind as_pandas]. rewrite Hrows.
  unfold pd_getitem, series_mean. rewrite Hclose, Hvolume. cbn [bind s_values].
  rewrite Hc, Hv. reflexivity.
Qed.

(** The symbols the loop appends are those of tradable assets and are
    alphanumeric; a symbol whose bars cannot be fetched is passed over and
    the loop goes on. *)
Lemma tradable_loop_only_tradable_alnum iterable symbol :
  In symbol (loop iterable []) ->
  exists a, In a iterable /\ a_symbol a = symbol
            /\ a_tradable a = true /\ isalnum symbol = true.
Proof.
  rewrite tradable_loop_filter. simpl. rewrite in_map_iff.
  intros (a & <- & Hin). apply filter_In in Hin as [Hin Hkeep].
  unfold appended in Hkeep.
  apply andb_prop in Hkeep as [Hkeep _]. apply andb_prop in Hkeep as [Ht Ha].
  exists a. auto.
Qed.

Lemma tradable_body_fetch_error a acc e :
  passes (a_symbol a) = Raise e -> body a acc = acc.
Proof.
  intros H. rewrite tradable_body_appended. unfold appended. rewrite H.
  rewrite andb_false_r. reflexivity.
Qed.

End Tradable.

End TradableFacts.

(** C5.  [AAPL] and [EDGE] are tradable, alphanumeric and reach both
    thresholds ([EDGE] exactly), [PENNY] and [THIN] miss one each: the
    call raises [UnboundLocalError] instead of returning
    [AAPL] and [EDGE], which is what the loop yields on this listing. *)
Theorem get_tradable_symbols_thresholds :
  let assets := [Sample.listed "AAPL" true; Sample.listed "EDGE" true;
                 Sample.listed "PENNY" true; Sample.listed "THIN" true] in
  get_tradable_symbols Z Sample.api_by_symbol (Sample.api_assets assets)
    Sample.sample_now Sample.mean_Z Z.geb "active" "us_equity" 5%Z 500000%Z
  = Raise (UnboundLocalError "asset")
  /\ tradable_loop Z Sample.api_by_symbol Sample.sample_now Sample.mean_Z Z.geb
       5%Z 500000%Z (map Sample.as_dict assets) []
     = ["AAPL"; "EDGE"].
Proof. split; reflexivity. Qed.

(** C6.  The listing is [AAPL] and [BRK.B], both tradable, and [MSFT],
    not tradable: the call raises [UnboundLocalError] instead of returning
    [AAPL] alone, which is what the loop yields on this listing. *)
Theorem get_tradable_symbols_alnum :
  let assets := [Sample.listed "AAPL" true; Sample.listed "BRK.B" true;
                 Sample.listed "MSFT" false] in
  get_tradable_symbols Z Sample.api_by_symbol (Sample.api_assets assets)
    Sample.sample_now Sample.mean_Z Z.geb "active" "us_equity" 5%Z 500000%Z
  = Raise (UnboundLocalError "asset")
  /\ isalnum "BRK.B" = false
  /\ tradable_loop Z Sample.api_by_symbol Sample.sample_now Sample.mean_Z Z.geb
       5%Z 500000%Z (map Sample.as_dict assets) []
     = ["AAPL"].
Proof. split; [|split]; reflexivity. Qed.

(** C7.  The listing is [AAPL], [DOWN] and [MSFT], and the bars of [DOWN]
    cannot be fetched: the call raises [UnboundLocalError] instead of
    returning [AAPL] and [MSFT], which is what the loop yields on this
    listing. *)
Theorem get_tradable_symbols_isolation :
  let assets := [Sample.listed "AAPL" true; Sample.listed "DOWN" true;
                 Sample.listed "MSFT" true] in
  get_tradable_symbols Z Sample.api_by_symbol (Sample.api_assets assets)
    Sample.sample_now Sample.mean_Z Z.geb "active" "us_equity" 5%Z 500000%Z
  = Raise (UnboundLocalError "asset")
  /\ symbol_passes Z Sample.api_by_symbol Sample.sample_now Sample.mean_Z Z.geb
       "DOWN" 5%Z 500000%Z
     = Raise (RemoteError "503")
  /\ tradable_loop Z Sample.api_by_symbol Sample.sample_now Sample.mean_Z Z.geb
       5%Z 500000%Z (map Sample.as_dict assets) []
     = ["AAPL"; "MSFT"].
Proof. split; [|split]; reflexivity. Qed.

(** ** Parsing and calendar samples *)

Example parse_2024_01_01 :
  Iso.fromisoformat "2024-01-01" = Ok (combine (ymd2ord 2024 1 1) 0).
Proof. reflexivity. Qed.

Example parse_with_Z :
  Iso.fromisoformat (Iso.replace_Z "2024-01-10T09:30:00Z")
  = Ok (combine (ymd2ord 2024 1 10) (34200 * US_PER_SECOND)).
Proof. reflexivity. Qed.

Example ymd2ord_2024_01_01 : ymd2ord 2024 1 1 = 738886%Z.
Proof. reflexivity. Qed.

Example ymd2ord_max : ymd2ord 9999 12 31 = MAXORDINAL.
Proof. reflexivity. Qed.

(** Within a week of [date.max] the loop stops on [OverflowError] before
    any window is requested. *)
Example backfill_at_date_max :
  backfill Z Sample.sample_now Sample.fetch_one_row ["AAPL"] "1Min" 1000
    (DStr "9999-12-31") (DStr "9999-12-31")
  = ([], Some (Raise OverflowError)).
Proof. reflexivity. Qed.

(** * Further properties *)

(** ** More on the windows of [backfill] *)

Module BackfillMore.

Import Coverage.

Lemma ends_on_cons e w w2 rest :
  ends_on e (w :: w2 :: rest) <-> ends_on e (w2 :: rest).
Proof.
  unfold ends_on. split; intros (x & Hlast & Hend); exists x; split; auto.
Qed.

Lemma ends_on_single e w : ends_on e [w] <-> w_end w = combine e time_max.
Proof.
  unfold ends_on. split.
  - intros (x & [= <-] & Hend). exact Hend.
  - intros Hend. exists w. split; [reflexivity | exact Hend].
Qed.

(** A chain that ends on [end_date] is made of full 8-day windows
    followed by one last window. *)
Lemma chain_complete_head e cur w rest :
  chain e cur (w :: rest) -> ends_on e (w :: rest) ->
  (rest = [] /\ w = window_between cur e /\ (cur <= e <= cur + 7)%Z)
  \/ (rest <> [] /\ w = window_between cur (cur + 7)%Z /\ (cur + 7 < e)%Z
      /\ chain e (cur + 8)%Z rest /\ ends_on e rest).
Proof.
  intros (Hle & -> & Hrest) Hend.
  destruct rest as [|w2 rest'].
  - left. apply ends_on_single in Hend. simpl in Hend.
    injection Hend as Hmin.
    split; [reflexivity|]. split; [f_equal; f_equal; lia | lia].
  - right. apply ends_on_cons in Hend.
    pose proof Hrest as (Hle2 & _ & _).
    replace (Z.min (cur + 7) e) with (cur + 7)%Z in * by lia.
    replace (cur + 7 + 1)%Z with (cur + 8)%Z in Hrest by lia.
    split; [discriminate|]. split; [reflexivity|]. split; [lia|]. auto.
Qed.

Lemma chain_complete_count e : forall ws cur,
  chain e cur ws -> ends_on e ws ->
  Z.of_nat (length ws) = ((e - cur) / 8 + 1)%Z.
Proof.
  induction ws as [|w rest IH]; intros cur Hchain Hend.
  - destruct Hend as (x & Hlast & _). discriminate.
  - destruct (chain_complete_head _ _ _ _ Hchain Hend)
      as [(-> & _ & Hr) | (_ & _ & Hlt & Hchain' & Hend')].
    + simpl. rewrite Z.div_small by lia. reflexivity.
    + specialize (IH _ Hchain' Hend').
      change (length (w :: rest)) with (S (length rest)).
      rewrite Nat2Z.inj_succ, IH.
      replace (e - cur)%Z with ((e - (cur + 8)) + 1 * 8)%Z by lia.
      rewrite Z.div_add by lia. lia.
Qed.

Lemma chain_complete_covers e : forall ws cur,
  chain e cur ws -> ends_on e ws ->
  forall d, (cur <= d <= e)%Z -> exists w, In w ws /\ covers w d.
Proof.
  induction ws as [|w rest IH]; intros cur Hchain Hend d Hd.
  - destruct Hend as (x & Hlast & _). discriminate.
  - destruct (chain_complete_head _ _ _ _ Hchain Hend)
      as [(-> & -> & Hr) | (_ & -> & Hlt & Hchain' & Hend')].
    + eexists. split; [left; reflexivity|]. unfold covers. simpl. lia.
    + destruct (Z_le_gt_dec d (cur + 7)) as [Hin | Hout].
      * eexists. split; [left; reflexivity|]. unfold covers. simpl. lia.
      * destruct (IH _ Hchain' Hend' d) as (w & Hw & Hc); [lia|].
        exists w. split; [right; exact Hw | exact Hc].
Qed.

Lemma chain_disjoint e : forall ws cur,
  chain e cur ws ->
  forall w w' d, In w ws -> In w' ws -> covers w d -> covers w' d -> w = w'.
Proof.
  induction ws as [|w0 rest IH]; intros cur Hchain w w' d Hw Hw' Hc Hc';
    [destruct Hw|].
  pose proof Hchain as (Hle & Hw0 & Hrest).
  pose proof (BackfillFacts.chain_bounds _ _ _ Hrest) as Hb.
  rewrite List.Forall_forall in Hb.
  assert (Hhead : forall x, In x rest -> covers x d -> covers w0 d -> False).
  { intros x Hx Hcx Hc0. apply Hb in Hx as [Hx _].
    unfold covers in *. rewrite Hw0 in Hc0. simpl in Hc0. lia. }
  destruct Hw as [<- | Hw], Hw' as [<- | Hw'].
  - reflexivity.
  - exfalso. eauto.
  - exfalso. eauto.
  - eapply IH; eauto.
Qed.

Section Runs.

Variable num : Type.
Variable fetch :
  list string -> string -> time_arg -> time_arg -> option Z -> result (frame num).
Variables (symbols : list string) (timeframe : string) (batch_size : Z).
Variable now : datetime.

Abbreviation loop := (backfill_loop num fetch symbols timeframe batch_size).
Abbreviation run_dates := (backfill_dates num fetch symbols timeframe batch_size).
Abbreviation run := (backfill num now fetch symbols timeframe batch_size).
Abbreviation fetch_at w :=
  (fetch symbols timeframe (TDatetime (w_start w)) (TDatetime (w_end w))
     (Some batch_size)).

Lemma completed_ends_on (s e : date) all_data :
  (s <= e)%Z ->
  outcome_of (run_dates s e) = Some (Ok all_data) ->
  ends_on e (windows_of (run_dates s e)).
Proof.
  intros Hse Hout. unfold backfill_dates, outcome_of, windows_of in *.
  destruct (loop _ e s []) as [ws r] eqn:Hrun. simpl in *. subst r.
  eapply BackfillFacts.loop_completed_ends_on; eauto.
Qed.

(** Every window requested lies within the dates asked for, runs from a
    midnight to the last instant of a day, and no day is asked for twice. *)
Theorem backfill_windows_within_range (s e : date) w :
  In w (windows_of (run (DDate s) (DDate e))) ->
  (s <= dt_date (w_start w))%Z
  /\ (dt_date (w_start w) <= dt_date (w_end w))%Z
  /\ (dt_date (w_end w) <= e)%Z
  /\ day_aligned w
  /\ forall w' d,
       In w' (windows_of (run (DDate s) (DDate e))) ->
       covers w d -> covers w' d -> w = w'.
Proof.
  destruct (BackfillFacts.backfill_unfold_dates num fetch symbols timeframe
              batch_size now s e) as [-> _].
  intros Hin.
  pose proof (BackfillFacts.backfill_dates_chain num fetch symbols timeframe
                batch_size s e) as Hchain.
  pose proof (BackfillFacts.chain_bounds _ _ _ Hchain) as Hb.
  pose proof (BackfillFacts.chain_spans _ _ _ Hchain) as Hs.
  rewrite List.Forall_forall in Hb, Hs.
  destruct (Hb _ Hin) as [H1 H2]. destruct (Hs _ Hin) as [Ha [Hs0 _]].
  unfold span_days in Hs0.
  split; [exact H1|]. split; [lia|]. split; [exact H2|]. split; [exact Ha|].
  intros w' d Hin' Hc Hc'. eapply chain_disjoint; eauto.
Qed.

(** For [start_date] and [end_date] given as dates, as strings or left to
    their defaults (lines 62-70 turn each of these into a date): when the
    loop reaches its end, every day from [start_date] to [end_date] lies
    in exactly one of the windows requested. *)
Theorem backfill_covers_each_day_once (start_date end_date : date_arg)
    (s e : date) all_data d :
  normalize_date (default_start_date now) start_date = Ok s ->
  normalize_date (default_end_date now) end_date = Ok e ->
  outcome_of (run_dates s e) = Some (Ok all_data) ->
  (s <= d <= e)%Z ->
  exists w,
    In w (windows_of (run start_date end_date)) /\ covers w d
    /\ forall w',
         In w' (windows_of (run start_date end_date)) -> covers w' d -> w' = w.
Proof.
  intros Hs He Hout Hd.
  assert (Hws : windows_of (run start_date end_date)
                = windows_of (run_dates s e)).
  { unfold backfill. rewrite Hs, He.
    destruct (backfill_dates _ _ _ _ _ _ _) as [ws r]. reflexivity. }
  rewrite Hws.
  pose proof (BackfillFacts.backfill_dates_chain num fetch symbols timeframe
                batch_size s e) as Hchain.
  assert (Hend : ends_on e (windows_of (run_dates s e)))
    by (eapply completed_ends_on; [lia | exact Hout]).
  destruct (chain_complete_covers _ _ _ Hchain Hend d Hd) as (w & Hw & Hc).
  exists w. split; [exact Hw|]. split; [exact Hc|].
  intros w' Hw' Hc'. eapply chain_disjoint; eauto.
Qed.

(** When the loop reaches its end it has made one fetch for every 8 days
    of the range, the last one possibly shorter:
    [(end_date - start_date) // 8 + 1] fetches. *)
Theorem backfill_number_of_windows (s e : date) all_data :
  (s <= e)%Z ->
  outcome_of (run_dates s e) = Some (Ok all_data) ->
  Z.of_nat (length (windows_of (run_dates s e))) = ((e - s) / 8 + 1)%Z.
Proof.
  intros Hse Hout.
  apply chain_complete_count.
  - apply BackfillFacts.backfill_dates_chain.
  - eapply completed_ends_on; eauto.
Qed.

End Runs.

End BackfillMore.

(** ** What [backfill] returns *)

Module BackfillOutcome.

Section Runs.

Variable num : Type.
Variable fetch :
  list string -> string -> time_arg -> time_arg -> option Z -> result (frame num).
Variables (symbols : list string) (timeframe : string) (batch_size : Z).
Variable now : datetime.

Abbreviation loop := (backfill_loop num fetch symbols timeframe batch_size).
Abbreviation run_dates := (backfill_dates num fetch symbols timeframe batch_size).
Abbreviation run := (backfill num now fetch symbols timeframe batch_size).
Abbreviation fetch_at w :=
  (fetch symbols timeframe (TDatetime (w_start w)) (TDatetime (w_end w))
     (Some batch_size)).

(** The cases of one turn of the loop, in the order of the statements that
    can end it. *)
Ltac turn_cases e cur :=
  simpl;
  destruct (cur <=? e)%Z eqn:?Hle;
  [ destruct (date_add_days cur 7) as [?plus7|?] eqn:?H7;
    [ apply date_add_days_Ok in H7 as [-> ?Hr7];
      destruct (fetch symbols timeframe
                  (TDatetime (combine cur time_min))
                  (TDatetime (combine (Z.min (cur + 7) e) time_max))
                  (Some batch_size)) as [?batch_data|?] eqn:?Hfetch;
      [ destruct (attr_empty batch_data) as [?is_empty|?] eqn:?Hempty;
        [ destruct (date_add_days (Z.min (cur + 7) e) 1) as [?next|?] eqn:?H1;
          [ apply date_add_days_Ok in H1 as [-> ?Hr1] | ]
        | ]
      | ]
    | ]
  | ].

(** A turn whose fetch raises ends the loop with that exception. *)
Lemma loop_fetch_raises fuel e cur acc ex :
  (cur <= e)%Z -> (0 < cur + 7 <= MAXORDINAL)%Z ->
  fetch_at (window_between cur (Z.min (cur + 7) e)) = Raise ex ->
  loop (S fuel) e cur acc
  = ([window_between cur (Z.min (cur + 7) e)], Some (Raise ex)).
Proof.
  intros Hce Hr Hf. simpl in Hf.
  turn_cases e cur; try congruence; try lia.
  - injection Hf as <-. reflexivity.
  - rewrite date_add_days_in_range in H7 by lia. discriminate.
Qed.

(** The list handed to line 99 grows by one frame for each batch with
    rows. *)
Lemma loop_completed_batches fuel :
  forall e cur acc ws all_data,
    loop fuel e cur acc = (ws, Some (Ok all_data)) ->
    (length acc <= length all_data)%nat
    /\ (length all_data = length acc ->
        forall w, In w ws ->
          exists batch_data,
            fetch_at w = Ok batch_data /\ attr_empty batch_data = Ok true).
Proof.
  induction fuel as [|fuel IH]; intros e cur acc ws all_data.
  - simpl. destruct (cur <=? e)%Z; [discriminate|].
    intros [= <- <-]. split; [lia | intros _ w []].
  - turn_cases e cur; try discriminate.
    + destruct (loop fuel e _ _) as [ws' r] eqn:Hloop.
      intros [= <- ->]. destruct (IH _ _ _ _ _ Hloop) as [Hlen Hall].
      destruct is_empty; simpl in *.
      * split; [exact Hlen|]. intros Heq w [<- | Hw]; [|auto].
        exists batch_data. simpl. auto.
      * rewrite length_app in Hlen. simpl in Hlen.
        split; [lia|]. intros Heq. lia.
    + intros [= <- <-]. split; [lia | intros _ w []].
Qed.

(** [backfill] returns a table only when every batch it fetched was empty,
    and the table it returns is the empty one: the rows of a batch are
    never returned. *)
Theorem backfill_returns_no_rows (start_date end_date : date_arg) f :
  outcome_of (run start_date end_date) = Some (Ok f) ->
  f = polars_DataFrame
  /\ forall w, In w (windows_of (run start_date end_date)) ->
       exists batch_data,
         fetch_at w = Ok batch_data /\ attr_empty batch_data = Ok true.
Proof.
  unfold backfill.
  destruct (normalize_date _ start_date) as [s|]; [|discriminate].
  destruct (normalize_date _ end_date) as [e|]; [|discriminate].
  unfold backfill_dates, outcome_of, windows_of.
  destruct (loop _ e s []) as [ws [[all_data|ex]|]] eqn:Hloop; simpl;
    try discriminate.
  destruct (loop_completed_batches _ _ _ _ _ _ Hloop) as [_ Hall].
  destruct all_data as [|b rest]; simpl; [|discriminate].
  intros [= <-]. split; [reflexivity|]. apply Hall. reflexivity.
Qed.


(** Without dates, [backfill] asks for the 31 days that end today, in four
    windows of 8, 8, 8 and 7 days. *)
Theorem backfill_default_windows :
  (31 <= dt_date now <= MAXORDINAL - 7)%Z ->
  (forall w, answered num fetch symbols timeframe batch_size w) ->
  windows_of (run DNone DNone)
  = [window_between (dt_date now - 30)%Z (dt_date now - 23)%Z;
     window_between (dt_date now - 22)%Z (dt_date now - 15)%Z;
     window_between (dt_date now - 14)%Z (dt_date now - 7)%Z;
     window_between (dt_date now - 6)%Z (dt_date now)].
Proof.
  intros Hnow Hans. set (t := dt_date now) in *.
  unfold backfill, default_start_date, default_end_date, normalize_date,
    datetime_sub_days, date_of.
  fold t. rewrite date_add_days_in_range by lia. simpl.
  change (dt_date now) with t. change (- (30))%Z with (-30)%Z.
  pose proof (BackfillFacts.backfill_dates_chain num fetch symbols timeframe
                batch_size (t + -30)%Z t) as Hchain.
  destruct (BackfillFacts.backfill_dates_completes num fetch symbols timeframe
              batch_size (t + -30)%Z t) as [all_data Hout]; [lia | lia | auto |].
  assert (Hend : ends_on t (windows_of (run_dates (t + -30)%Z t))).
  { unfold backfill_dates, outcome_of, windows_of in *.
    destruct (loop _ t (t + -30)%Z []) as [ws0 r0] eqn:Hrun. simpl in *.
    subst r0.
    eapply BackfillFacts.loop_completed_ends_on; [|exact Hrun]. lia. }
  destruct (run_dates (t + -30)%Z t) as [ws r]. unfold windows_of in *.
  simpl in *.
  destruct ws as [|w1 ws]; [destruct Hend as (x & Hx & _); discriminate|].
  destruct (BackfillMore.chain_complete_head _ _ _ _ Hchain Hend)
    as [(_ & _ & Hr) | (_ & -> & _ & Hc1 & He1)]; [lia|].
  destruct ws as [|w2 ws]; [destruct He1 as (x & Hx & _); discriminate|].
  destruct (BackfillMore.chain_complete_head _ _ _ _ Hc1 He1)
    as [(_ & _ & Hr) | (_ & -> & _ & Hc2 & He2)]; [lia|].
  destruct ws as [|w3 ws]; [destruct He2 as (x & Hx & _); discriminate|].
  destruct (BackfillMore.chain_complete_head _ _ _ _ Hc2 He2)
    as [(_ & _ & Hr) | (_ & -> & _ & Hc3 & He3)]; [lia|].
  destruct ws as [|w4 ws]; [destruct He3 as (x & Hx & _); discriminate|].
  destruct (BackfillMore.chain_complete_head _ _ _ _ Hc3 He3)
    as [(-> & -> & _) | (_ & _ & Hlt & _)]; [|lia].
  unfold window_between, combine.
  repeat (f_equal; try lia).
Qed.

End Runs.

End BackfillOutcome.

(** ** More on [get_bars] and [fetch_bars] *)

Module FetchBarsMore.

Section FetchBars.

Variable num : Type.
Variable api_get_bars :
  list string -> string -> date * Z -> date * Z -> option Z -> result (pandas num).
Variable now : datetime.

Abbreviation client_get_bars := (get_bars api_get_bars now).
Abbreviation fetch := (fetch_bars num api_get_bars now).

(** [get_bars] never hands back an empty pandas frame: what it returns is
    the fresh empty frame of line 83 or an answer of the SDK that has
    rows. *)
Theorem get_bars_never_empty_pandas symbols timeframe start end_ limit f :
  client_get_bars symbols timeframe start end_ limit = Ok f ->
  f = polars_DataFrame
  \/ exists df, f = Pandas df /\ pd_empty df = false
                /\ (0 < pd_nrows df)%nat /\ pd_columns df <> [].
Proof.
  intros H. apply FetchBarsFacts.get_bars_returns in H
    as [-> | (df & -> & Hrows)]; [left; reflexivity|].
  right. exists df. split; [reflexivity|]. split; [exact Hrows|].
  unfold pd_empty in Hrows. apply orb_false_elim in Hrows as [Hn Hc].
  split.
  - destruct (pd_nrows df); [discriminate | lia].
  - destruct (pd_columns df); [discriminate | discriminate].
Qed.

(** [fetch_bars] returns nothing but the empty frame, and it returns at
    all only when the answer of the SDK has rows and, once its index is
    reset, a column named [column]. *)
Theorem fetch_bars_returns_only_empty symbols timeframe start end_ limit f :
  fetch symbols timeframe start end_ limit = Ok f ->
  f = polars_DataFrame
  /\ exists df bars values,
       client_get_bars symbols timeframe start end_ limit = Ok (Pandas df)
       /\ pd_reset_index df = Ok bars
       /\ find_column "column" (pd_columns bars) = Some values.
Proof.
  intros Hf.
  destruct (client_get_bars symbols timeframe start end_ limit) as [g|e] eqn:Hget.
  - destruct (FetchBarsFacts.get_bars_returns num api_get_bars now
                _ _ _ _ _ _ Hget)
      as [-> | (df & -> & Hrows)].
    + rewrite (FetchBarsFacts.fetch_bars_no_rows num api_get_bars now
                 _ _ _ _ _ Hget) in Hf.
      discriminate.
    + destruct (pd_reset_index df) as [bars|e] eqn:Hreset.
      * rewrite (FetchBarsFacts.fetch_bars_rows num api_get_bars now
                   _ _ _ _ _ _ _ Hget Hrows Hreset) in Hf.
        destruct (find_column "column" (pd_columns bars)) as [values|] eqn:Hc;
          [|discriminate].
        injection Hf as <-. split; [reflexivity|].
        exists df, bars, values. auto.
      * unfold fetch_bars in Hf. rewrite Hget in Hf. simpl in Hf.
        rewrite Hrows, Hreset in Hf. discriminate.
  - unfold fetch_bars in Hf. rewrite Hget in Hf. discriminate.
Qed.

(** An exception of the SDK comes out of [get_bars] and of [fetch_bars]
    as it is. *)
Lemma sdk_error_propagates symbols timeframe (start end_ : datetime) limit e :
  api_get_bars symbols timeframe (strftime_seconds start)
    (strftime_seconds end_) limit = Raise e ->
  client_get_bars symbols timeframe (TDatetime start) (TDatetime end_) limit
  = Raise e
  /\ fetch symbols timeframe (TDatetime start) (TDatetime end_) limit = Raise e.
Proof.
  intros H. unfold fetch_bars, get_bars. simpl. rewrite H. split; reflexivity.
Qed.

Lemma has_name_find (name : string) (cols : list (column num)) :
  has_name name cols = true -> exists vs, find_column name cols = Some vs.
Proof.
  unfold has_name, names.
  induction cols as [|[n vs] rest IH]; simpl; [discriminate|].
  destruct (String.eqb name n); simpl; eauto.
Qed.

(** Lines 46-50 on a frame that has the six required columns: the result
    keeps these six, in the order of [required_columns] and with their
    values, drops every other column, and gains [timeframe], [source]
    and [fetched_at], each holding one value on every row. *)
Theorem format_bars_on_complete_frame timeframe (bars : pandas num) :
  (forall name, In name required_columns ->
                has_name name (pd_columns bars) = true) ->
  exists out,
    format_bars num now timeframe bars = Ok out
    /\ names (pd_columns out)
       = ["symbol"; "timestamp"; "open"; "high"; "low"; "close";
          "timeframe"; "source"; "fetched_at"]
    /\ pd_nrows out = pd_nrows bars
    /\ (forall name, In name required_columns ->
          find_column name (pd_columns out) = find_column name (pd_columns bars))
    /\ find_column "timeframe" (pd_columns out)
       = Some (repeat (CStr timeframe) (pd_nrows bars))
    /\ find_column "source" (pd_columns out)
       = Some (repeat (CStr "alpaca") (pd_nrows bars))
    /\ find_column "fetched_at" (pd_columns out)
       = Some (repeat (CTime now) (pd_nrows bars)).
Proof.
  intros Hall.
  assert (Hf : forall name, In name required_columns ->
                 exists vs, find_column name (pd_columns bars) = Some vs)
    by (intros name Hn; apply has_name_find; auto).
  unfold required_columns in *.
  destruct (Hf "symbol") as [v1 H1]; [simpl; tauto|].
  destruct (Hf "timestamp") as [v2 H2]; [simpl; tauto|].
  destruct (Hf "open") as [v3 H3]; [simpl; tauto|].
  destruct (Hf "high") as [v4 H4]; [simpl; tauto|].
  destruct (Hf "low") as [v5 H5]; [simpl; tauto|].
  destruct (Hf "close") as [v6 H6]; [simpl; tauto|].
  unfold format_bars, pd_getitem_list, required_columns. simpl.
  rewrite H1, H2, H3, H4, H5, H6. simpl.
  eexists. split; [reflexivity|]. simpl.
  split; [reflexivity|]. split; [reflexivity|].
  split; [|split; [reflexivity | split; reflexivity]].
  intros name [<- | [<- | [<- | [<- | [<- | [<- | []]]]]]]; simpl; congruence.
Qed.

End FetchBars.

End FetchBarsMore.

(** An exception of the SDK on the first window comes out of [backfill]
    on the connector's own [fetch_bars] as it is: the SDK is asked for the
    bars from 00:00:00 of [start_date] to 23:59:59 of the first
    [batch_end], with [batch_size] as the limit, and nothing else is
    asked for. *)
Theorem backfill_surfaces_sdk_error
    (num : Type)
    (api_get_bars : list string -> string -> date * Z -> date * Z -> option Z ->
                    result (pandas num))
    (now : datetime) (symbols : list string) (timeframe : string)
    (batch_size : Z) (s e : date) (ex : exn) :
  (1 <= s)%Z -> (s <= e)%Z -> (s + 7 <= MAXORDINAL)%Z ->
  api_get_bars symbols timeframe (s, 0%Z) (Z.min (s + 7) e, 86399%Z)
    (Some batch_size) = Raise ex ->
  backfill num now (fetch_bars num api_get_bars now) symbols timeframe
    batch_size (DDate s) (DDate e)
  = ([window_between s (Z.min (s + 7) e)], Some (Raise ex)).
Proof.
  intros Hs Hse Hmax Hapi.
  unfold backfill, backfill_dates. simpl.
  destruct (Z.to_nat (e - s + 1)) as [|fuel] eqn:Hfuel; [lia|].
  rewrite BackfillOutcome.loop_fetch_raises with (ex := ex); [reflexivity | lia | lia |].
  apply FetchBarsMore.sdk_error_propagates. exact Hapi.
Qed.

(** ** More on [get_tradable_symbols] *)

Module TradableMore.

Lemma all_alnum_app s1 s2 :
  all_alnum (String.append s1 s2) = all_alnum s1 && all_alnum s2.
Proof.
  induction s1 as [|c s1 IH]; simpl; [reflexivity|].
  rewrite IH, andb_assoc. reflexivity.
Qed.

(** A string with a character that is no ASCII letter or digit is not
    alphanumeric, nor is the empty string. *)
Lemma isalnum_false s1 c s2 :
  is_alnum_char c = false -> isalnum (String.append s1 (String c s2)) = false.
Proof.
  intros Hc.
  assert (H : all_alnum (String.append s1 (String c s2)) = false).
  { rewrite all_alnum_app. simpl. rewrite Hc. simpl. apply andb_false_r. }
  unfold isalnum. destruct (String.append s1 (String c s2)); [reflexivity | exact H].
Qed.

Section Tradable.

Variable num : Type.
Variable api_get_bars :
  list string -> string -> date * Z -> date * Z -> option Z -> result (pandas num).
Variable api_list_assets : string -> string -> result (list sdk_asset).
Variable now : datetime.
Variable mean : list num -> num.
Variable ge : num -> num -> bool.
Variables (min_price min_volume : num).

Abbreviation passes :=
  (fun symbol => symbol_passes num api_get_bars now mean ge symbol
                   min_price min_volume).
Abbreviation body :=
  (tradable_body num api_get_bars now mean ge min_price min_volume).
Abbreviation loop :=
  (tradable_loop num api_get_bars now mean ge min_price min_volume).
Abbreviation keeps :=
  (appended num api_get_bars now mean ge min_price min_volume).
Abbreviation recent_bars symbol :=
  (get_bars api_get_bars now [symbol] "1Min" TNone TNone (Some 5%Z)).
Abbreviation reaches_thresholds :=
  (reaches_thresholds num api_get_bars now mean ge min_price min_volume).

Lemma symbol_passes_true symbol :
  passes symbol = Ok true <-> reaches_thresholds symbol.
Proof.
  unfold AlpacaConnector.reaches_thresholds. split.
  - unfold symbol_passes.
    destruct (recent_bars symbol) as [[df|pl]|e] eqn:Hget; simpl;
      try discriminate.
    destruct (pd_empty df) eqn:Hrows; [discriminate|].
    unfold pd_getitem, series_mean.
    destruct (find_column "close" (pd_columns df)) as [close|] eqn:Hc; simpl;
      [|discriminate].
    destruct (numbers close) as [closes|] eqn:Hnc; simpl; [|discriminate].
    destruct (find_column "volume" (pd_columns df)) as [volume|] eqn:Hv; simpl;
      [|discriminate].
    destruct (numbers volume) as [volumes|] eqn:Hnv; simpl; [|discriminate].
    intros [= H]. apply andb_prop in H as [H1 H2].
    exists df, close, volume, closes, volumes. auto 10.
  - intros (df & close & volume & closes & volumes
            & Hget & Hc & Hv & Hnc & Hnv & H1 & H2).
    destruct (FetchBarsFacts.get_bars_returns num api_get_bars now
                _ _ _ _ _ _ Hget) as [Hp | (df' & [= <-] & Hrows)];
      [discriminate|].
    rewrite (TradableFacts.symbol_passes_thresholds num api_get_bars now mean ge
               min_price min_volume symbol df close volume closes volumes)
      by assumption.
    rewrite H1, H2. reflexivity.
Qed.

(** One turn of the loop, lines 160-180, either appends the symbol or
    leaves the list as it is.  For an asset whose symbol is ASCII text the
    symbol is appended exactly when the asset is tradable, its symbol is
    made of letters and digits, at least one, and its recent bars reach
    both thresholds; in every other case, an exception while fetching or
    averaging included, the list is left as it is. *)
Theorem tradable_body_criterion (a : asset) (acc : list string) :
  (body a acc = acc ++ [a_symbol a] \/ body a acc = acc)
  /\ (isascii (a_symbol a) = true ->
      (body a acc = acc ++ [a_symbol a] <->
       a_tradable a = true /\ isalnum (a_symbol a) = true
       /\ reaches_thresholds (a_symbol a))).
Proof.
  cut ((body a acc = acc ++ [a_symbol a] \/ body a acc = acc)
       /\ (body a acc = acc ++ [a_symbol a] <->
           a_tradable a = true /\ isalnum (a_symbol a) = true
           /\ reaches_thresholds (a_symbol a))).
  { intros [H1 H2]. split; [exact H1 | intros _; exact H2]. }
  rewrite TradableFacts.tradable_body_appended.
  assert (Hk : keeps a = true <->
               a_tradable a = true /\ isalnum (a_symbol a) = true
               /\ reaches_thresholds (a_symbol a)).
  { unfold appended. rewrite <- symbol_passes_true.
    destruct (a_tradable a), (isalnum (a_symbol a)),
      (passes (a_symbol a)) as [[|]|]; simpl; split;
      try discriminate; try tauto; intros (? & ? & ?); discriminate. }
  destruct (keeps a) eqn:E.
  - split; [left; reflexivity|]. split; [intros _; apply Hk; reflexivity | reflexivity].
  - split; [right; reflexivity|]. split.
    + intros H. apply (f_equal (@length string)) in H.
      rewrite length_app in H. simpl in H. lia.
    + intros H. apply Hk in H. discriminate.
Qed.

(** The loop judges each asset on its own: run over two listings one
    after the other, it yields what it yields on the first followed by
    what it yields on the second. *)
Theorem tradable_loop_app (l1 l2 : list asset) (acc : list string) :
  loop (l1 ++ l2) acc = acc ++ loop l1 [] ++ loop l2 [].
Proof.
  rewrite !TradableFacts.tradable_loop_filter. simpl.
  rewrite List.filter_app, map_app. reflexivity.
Qed.

(** An asset whose symbol is empty, or has an ASCII character that is
    neither a letter nor a digit (a dot, a dash, a space), is never
    appended, whatever its bars and whatever the other characters of the
    symbol. *)
Theorem tradable_body_rejects_symbol (a : asset) (acc : list string) :
  (a_symbol a = EmptyString -> body a acc = acc)
  /\ (forall s1 c s2,
        a_symbol a = String.append s1 (String c s2) ->
        is_ascii_char c = true ->
        is_alnum_char c = false ->
        body a acc = acc).
Proof.
  split.
  - intros H. unfold tradable_body. rewrite H. simpl.
    destruct (a_tradable a); reflexivity.
  - intros s1 c s2 H _ Hc. unfold tradable_body.
    rewrite H, (isalnum_false _ _ _ Hc). simpl.
    destruct (a_tradable a); reflexivity.
Qed.

(** [get_tradable_symbols] never returns a list: it raises what the asset
    listing raised, and [UnboundLocalError] when the listing succeeds. *)
Theorem get_tradable_symbols_never_returns status asset_class :
  (forall l,
     get_tradable_symbols num api_get_bars api_list_assets now mean ge
       status asset_class min_price min_volume <> Ok l)
  /\ (forall e,
        api_list_assets status asset_class = Raise e ->
        get_tradable_symbols num api_get_bars api_list_assets now mean ge
          status asset_class min_price min_volume = Raise e)
  /\ (forall assets,
        api_list_assets status asset_class = Ok assets ->
        get_tradable_symbols num api_get_bars api_list_assets now mean ge
          status asset_class min_price min_volume
        = Raise (UnboundLocalError "asset")).
Proof.
  rewrite TradableFacts.get_tradable_symbols_raises.
  destruct (api_list_assets status asset_class) as [assets|e].
  - split; [intros l; discriminate|].
    split; [intros e; discriminate | intros assets' _; reflexivity].
  - split; [intros l; discriminate|].
    split; [intros e' [= <-]; reflexivity | intros assets'; discriminate].
Qed.

End Tradable.

End TradableMore.

(** ** Construction *)

Module ConstructionFacts.

Import Construction.

Lemma truthy_nonempty (v : option string) :
  truthy v = true <-> exists s, v = Some s /\ s <> EmptyString.
Proof.
  split.
  - destruct v as [[|c s]|]; simpl; try discriminate.
    intros _. eexists. split; [reflexivity | discriminate].
  - intros (s & -> & Hs). destruct s; [contradiction | reflexivity].
Qed.

(** Where a credential comes from: the argument when it is a non-empty
    string, otherwise the process environment when the variable is set
    there (even to the empty string), otherwise the [.env] file. *)
Theorem credential_precedence (arg : option string) (name : string)
    (dotenv environ : gmap string string) :
  (truthy arg = true ->
     credential arg name (load_dotenv dotenv environ) = arg)
  /\ (truthy arg = false ->
      forall v, environ !! name = Some v ->
        credential arg name (load_dotenv dotenv environ) = Some v)
  /\ (truthy arg = false ->
      environ !! name = None ->
      credential arg name (load_dotenv dotenv environ) = dotenv !! name).
Proof.
  unfold credential, py_or, load_dotenv.
  split; [|split].
  - intros ->. reflexivity.
  - intros -> v Hv. apply lookup_union_Some_l. exact Hv.
  - intros -> Hnone. apply lookup_union_r. exact Hnone.
Qed.

Section Init.

Variable api : Type.
Variable REST : string -> string -> string -> result api.
Variable dotenv : gmap string string.

Abbreviation init := (client_init api REST dotenv).

(** A client that was constructed holds three non-empty credentials, each
    found as [credential] finds it, and the handle that [REST] returned
    for them. *)
Theorem client_init_ok (k s u : option string) (environ : gmap string string)
    (c : client api) :
  fst (init k s u environ) = Ok c ->
  api_key c <> EmptyString /\ api_secret c <> EmptyString
  /\ base_url c <> EmptyString
  /\ credential k "ALPACA_API_KEY" (load_dotenv dotenv environ)
     = Some (api_key c)
  /\ credential s "ALPACA_API_SECRET" (load_dotenv dotenv environ)
     = Some (api_secret c)
  /\ credential u "ALPACA_BASE_URL" (load_dotenv dotenv environ)
     = Some (base_url c)
  /\ REST (api_key c) (api_secret c) (base_url c) = Ok (api_handle c).
Proof.
  unfold client_init. simpl.
  destruct (truthy (credential k _ _)) eqn:Hk; simpl; [|discriminate].
  destruct (truthy (credential s _ _)) eqn:Hs; simpl; [|discriminate].
  destruct (truthy (credential u _ _)) eqn:Hu; simpl; [|discriminate].
  apply truthy_nonempty in Hk as (k' & -> & Hk').
  apply truthy_nonempty in Hs as (s' & -> & Hs').
  apply truthy_nonempty in Hu as (u' & -> & Hu').
  destruct (REST k' s' u') as [h|] eqn:Hrest; simpl; [|discriminate].
  intros [= <-]. simpl. auto 10.
Qed.

(** When a credential is found nowhere, or only as an empty string, the
    constructor raises [ValueError] and [REST] has no say in it. *)
Theorem client_init_missing (k s u : option string)
    (environ : gmap string string) :
  truthy (credential k "ALPACA_API_KEY" (load_dotenv dotenv environ)) = false
  \/ truthy (credential s "ALPACA_API_SECRET" (load_dotenv dotenv environ)) = false
  \/ truthy (credential u "ALPACA_BASE_URL" (load_dotenv dotenv environ)) = false ->
  init k s u environ
  = (Raise credentials_missing, load_dotenv dotenv environ).
Proof.
  unfold client_init. simpl.
  intros [H | [H | H]]; rewrite H; simpl;
    rewrite ?orb_true_r; reflexivity.
Qed.

(** The connector loads the [.env] file found from its own module, then
    the client loads the one found from the client's module, and neither
    load replaces a variable that is already set.  Constructing the
    connector therefore raises or returns, and leaves the environment,
    exactly as constructing the client with one file would: the
    connector's file, completed by the entries of the client's file for
    the names it does not have.  So a credential that is neither given as
    an argument nor set in the process environment comes from the
    connector's file when it is there, and from the client's file
    otherwise.  When both loads find the same file the second changes
    nothing, and constructing the connector is constructing the client. *)
Theorem connector_init_files (dotenv_connector : gmap string string)
    (k s u : option string) (environ : gmap string string) :
  connector_init api REST dotenv dotenv_connector k s u environ
  = client_init api REST (dotenv_connector ∪ dotenv) k s u environ
  /\ snd (connector_init api REST dotenv dotenv_connector k s u environ)
     = load_dotenv dotenv (load_dotenv dotenv_connector environ)
  /\ (forall arg name,
        truthy arg = false -> environ !! name = None ->
        credential arg name
          (snd (connector_init api REST dotenv dotenv_connector k s u environ))
        = match dotenv_connector !! name with
          | Some v => Some v
          | None => dotenv !! name
          end)
  /\ connector_init api REST dotenv dotenv k s u environ = init k s u environ.
Proof.
  split; [|split; [|split]].
  - unfold connector_init, client_init, load_dotenv.
    rewrite <- (assoc_L (∪)). reflexivity.
  - reflexivity.
  - intros arg name Harg Hnone.
    unfold connector_init, client_init, credential, py_or, load_dotenv.
    simpl. rewrite Harg, <- (assoc_L (∪)).
    rewrite (lookup_union_r _ _ _ Hnone).
    destruct (dotenv_connector !! name) as [v|] eqn:Hc.
    + apply lookup_union_Some_l. exact Hc.
    + apply lookup_union_r. exact Hc.
  - unfold connector_init, client_init, load_dotenv.
    rewrite <- (assoc_L (∪)), (idemp_L (∪)). reflexivity.
Qed.

End Init.

End ConstructionFacts.

(** ** Streaming *)

Module StreamingFacts.

Import Construction Streaming.

Lemma prefix_app (p s : string) :
  String.prefix p s = true <-> exists post, s = String.append p post.
Proof.
  revert s. induction p as [|a p IH]; intros s.
  - split; [intros _; exists s; reflexivity | intros _; destruct s; reflexivity].
  - destruct s as [|b s]; simpl.
    + split; [discriminate | intros [post H]; discriminate].
    + destruct (Ascii.ascii_dec a b) as [<- | Hne].
      * rewrite IH. split; intros [post H]; exists post.
        -- rewrite H. reflexivity.
        -- injection H as H. exact H.
      * split; [discriminate|]. intros [post H]. simpl in H.
        injection H as Hab _. exfalso. apply Hne. congruence.
Qed.

(** [contains] is the substring test. *)
Lemma contains_substring (needle hay : string) :
  contains needle hay = true <->
  exists pre post, hay = String.append pre (String.append needle post).
Proof.
  induction hay as [|c hay IH].
  - change (contains needle "") with (String.prefix needle "" || false).
    rewrite orb_false_r, prefix_app. split.
    + intros [post H]. exists EmptyString, post. exact H.
    + intros (pre & post & H). destruct pre; simpl in H; [eauto | discriminate].
  - change (contains needle (String c hay))
      with (String.prefix needle (String c hay) || contains needle hay).
    rewrite orb_true_iff, prefix_app, IH. split.
    + intros [[post H] | (pre & post & H)].
      * exists EmptyString, post. exact H.
      * exists (String c pre), post. simpl. rewrite H. reflexivity.
    + intros (pre & post & H). destruct pre as [|c' pre]; simpl in H.
      * left. eauto.
      * right. injection H as _ H. eauto.
Qed.

Section Stream.

Variables (num api stream sdk_bar pyval : Type).
Variable Stream : string -> string -> string -> string -> result stream.
Variable subscribe_bars : stream -> string -> result stream.
Variable bar_attr : sdk_bar -> string -> result pyval.
Variable cell_of : pyval -> cell num.
Variable now : datetime.

Abbreviation setup := (setup_streaming api stream Stream subscribe_bars).
Abbreviation subscribe := (subscribe_all stream subscribe_bars).
Abbreviation handler := (on_minute_bars num sdk_bar pyval bar_attr cell_of now).

(** The stream is opened on the paper endpoint exactly when [paper]
    occurs somewhere in the client's base URL, and on the live endpoint
    otherwise, always with the [iex] feed; the base URL itself is never
    handed to [Stream]. *)
Theorem setup_streaming_endpoint (c : client api) (symbols : list string) :
  ((exists pre post,
      base_url c = String.append pre (String.append "paper" post)) ->
   setup c symbols
   = bind (Stream (api_key c) (api_secret c) PAPER_URL "iex") (subscribe symbols))
  /\ (~ (exists pre post,
           base_url c = String.append pre (String.append "paper" post)) ->
      setup c symbols
      = bind (Stream (api_key c) (api_secret c) LIVE_URL "iex") (subscribe symbols)).
Proof.
  unfold setup_streaming. rewrite log_and_reraise_id.
  split; intros H.
  - apply contains_substring in H. rewrite H. reflexivity.
  - destruct (contains "paper" (base_url c)) eqn:E; [|reflexivity].
    exfalso. apply H. apply contains_substring. exact E.
Qed.

(** Lines 141-142 call [subscribe_bars] once for each symbol, in the
    order of the list, each call on the stream the previous one left: for
    one symbol the loop is that one call, for two lists one after the
    other it is the loop on the first followed by the loop on the second,
    and it raises [e] exactly when the symbols before some symbol were
    subscribed and the call for that symbol raised [e]; no symbol after it
    is subscribed. *)
Theorem subscribe_all_in_order (symbols : list string) (st : stream) :
  subscribe [] st = Ok st
  /\ (forall symbol, subscribe [symbol] st = subscribe_bars st symbol)
  /\ (forall l1 l2,
        subscribe (l1 ++ l2) st = bind (subscribe l1 st) (subscribe l2))
  /\ (forall e,
        subscribe symbols st = Raise e <->
        exists before symbol after st',
          symbols = before ++ symbol :: after
          /\ subscribe before st = Ok st'
          /\ subscribe_bars st' symbol = Raise e).
Proof.
  assert (Happ : forall l1 l2 st0,
            subscribe (l1 ++ l2) st0 = bind (subscribe l1 st0) (subscribe l2)).
  { induction l1 as [|symbol rest IH]; intros l2 st0; simpl; [reflexivity|].
    destruct (subscribe_bars st0 symbol) as [st'|e]; simpl;
      [apply IH | reflexivity]. }
  split; [reflexivity|]. split.
  { intros symbol. simpl. destruct (subscribe_bars st symbol); reflexivity. }
  split; [intros l1 l2; apply Happ|].
  intros e. split.
  - revert st. induction symbols as [|symbol rest IH]; intros st; simpl;
      [discriminate|].
    destruct (subscribe_bars st symbol) as [st1|e1] eqn:Hsub; simpl.
    + intros H. apply IH in H as (before & x & after & st' & -> & Hb & Hx).
      exists (symbol :: before), x, after, st'.
      split; [reflexivity|]. split; [|exact Hx].
      simpl. rewrite Hsub. exact Hb.
    + intros [= <-]. exists [], symbol, rest, st. auto.
  - intros (before & x & after & st' & -> & Hb & Hx).
    rewrite Happ, Hb. simpl. rewrite Hx. reflexivity.
Qed.

(** The handler raises on every bar before it gets to the callback: the
    callback is never called, whatever it is. *)
Theorem on_minute_bars_never_calls_back
    (callback : frame num -> result unit) (bar : sdk_bar) :
  (exists e, handler callback bar = Raise e)
  /\ forall callback', handler callback' bar = handler callback bar.
Proof.
  unfold on_minute_bars, polars_Timestamp.
  destruct (bar_attr bar "symbol") as [symbol|e]; simpl;
    (split; [eexists; reflexivity | reflexivity]).
Qed.

End Stream.

End StreamingFacts.

(** ** The further properties on sample data *)

Lemma backfill_windows_within_range_witness :
  In (window_between (ymd2ord 2024 1 9) (ymd2ord 2024 1 10))
     (windows_of (backfill Z Sample.sample_now Sample.fetch_one_row ["AAPL"]
                    "1Min" 1000 (DDate (ymd2ord 2024 1 1))
                    (DDate (ymd2ord 2024 1 10))))
  /\ (ymd2ord 2024 1 1
      <= dt_date (w_start (window_between (ymd2ord 2024 1 9) (ymd2ord 2024 1 10))))%Z
  /\ (dt_date (w_end (window_between (ymd2ord 2024 1 9) (ymd2ord 2024 1 10)))
      <= ymd2ord 2024 1 10)%Z.
Proof.
  assert (Hin : In (window_between (ymd2ord 2024 1 9) (ymd2ord 2024 1 10))
                  (windows_of
                     (backfill Z Sample.sample_now Sample.fetch_one_row ["AAPL"]
                        "1Min" 1000 (DDate (ymd2ord 2024 1 1))
                        (DDate (ymd2ord 2024 1 10)))))
    by (vm_compute; right; left; reflexivity).
  destruct (BackfillMore.backfill_windows_within_range Z Sample.fetch_one_row
              ["AAPL"] "1Min" 1000 Sample.sample_now
              (ymd2ord 2024 1 1) (ymd2ord 2024 1 10) _ Hin)
    as (H1 & _ & H3 & _).
  split; [exact Hin|]. split; [exact H1 | exact H3].
Defined.

Lemma backfill_covers_each_day_once_witness :
  outcome_of (backfill_dates Z Sample.fetch_one_row ["AAPL"] "1Min" 1000
                (ymd2ord 2024 1 1) (ymd2ord 2024 1 10))
  = Some (Ok [Pandas Sample.one_bar; Pandas Sample.one_bar])
  /\ (ymd2ord 2024 1 1 <= ymd2ord 2024 1 9 <= ymd2ord 2024 1 10)%Z
  /\ exists w,
       In w (windows_of (backfill Z Sample.sample_now Sample.fetch_one_row
                           ["AAPL"] "1Min" 1000
                           (DStr "2024-01-01") (DStr "2024-01-10")))
       /\ Coverage.covers w (ymd2ord 2024 1 9)
       /\ forall w',
            In w' (windows_of (backfill Z Sample.sample_now
                                 Sample.fetch_one_row ["AAPL"] "1Min" 1000
                                 (DStr "2024-01-01") (DStr "2024-01-10"))) ->
            Coverage.covers w' (ymd2ord 2024 1 9) -> w' = w.
Proof.
  assert (Hout : outcome_of (backfill_dates Z Sample.fetch_one_row ["AAPL"]
                               "1Min" 1000 (ymd2ord 2024 1 1) (ymd2ord 2024 1 10))
                 = Some (Ok [Pandas Sample.one_bar; Pandas Sample.one_bar]))
    by (vm_compute; reflexivity).
  assert (Hd : (ymd2ord 2024 1 1 <= ymd2ord 2024 1 9 <= ymd2ord 2024 1 10)%Z)
    by (vm_compute; split; discriminate).
  split; [exact Hout|]. split; [exact Hd|].
  exact (BackfillMore.backfill_covers_each_day_once Z Sample.fetch_one_row
           ["AAPL"] "1Min" 1000 Sample.sample_now
           (DStr "2024-01-01") (DStr "2024-01-10")
           (ymd2ord 2024 1 1) (ymd2ord 2024 1 10)
           _ (ymd2ord 2024 1 9) eq_refl eq_refl Hout Hd).
Defined.

Lemma backfill_number_of_windows_witness :
  (ymd2ord 2024 1 1 <= ymd2ord 2024 3 1)%Z
  /\ outcome_of (backfill_dates Z MoreSamples.fetch_nothing ["AAPL"] "1Min" 1000
                   (ymd2ord 2024 1 1) (ymd2ord 2024 3 1))
     = Some (Ok [])
  /\ Z.of_nat (length (windows_of
                         (backfill_dates Z MoreSamples.fetch_nothing ["AAPL"]
                            "1Min" 1000 (ymd2ord 2024 1 1) (ymd2ord 2024 3 1))))
     = 8%Z.
Proof.
  assert (Hse : (ymd2ord 2024 1 1 <= ymd2ord 2024 3 1)%Z)
    by (vm_compute; discriminate).
  assert (Hout : outcome_of (backfill_dates Z MoreSamples.fetch_nothing ["AAPL"]
                               "1Min" 1000 (ymd2ord 2024 1 1) (ymd2ord 2024 3 1))
                 = Some (Ok [])) by (vm_compute; reflexivity).
  split; [exact Hse|]. split; [exact Hout|].
  rewrite (BackfillMore.backfill_number_of_windows Z MoreSamples.fetch_nothing
             ["AAPL"] "1Min" 1000 (ymd2ord 2024 1 1) (ymd2ord 2024 3 1)
             _ Hse Hout).
  reflexivity.
Defined.

Lemma backfill_returns_no_rows_witness :
  outcome_of (backfill Z Sample.sample_now MoreSamples.fetch_nothing ["AAPL"]
                "1Min" 1000 (DStr "2024-01-01") (DStr "2024-01-10"))
  = Some (Ok polars_DataFrame)
  /\ outcome_of (backfill Z Sample.sample_now Sample.fetch_one_row ["AAPL"]
                   "1Min" 1000 (DStr "2024-01-01") (DStr "2024-01-10"))
     = Some (Raise (TypeError
                      "concat() got an unexpected keyword argument 'ignore_index'"))
  /\ forall w,
       In w (windows_of (backfill Z Sample.sample_now MoreSamples.fetch_nothing
                           ["AAPL"] "1Min" 1000
                           (DStr "2024-01-01") (DStr "2024-01-10"))) ->
       exists batch_data,
         MoreSamples.fetch_nothing ["AAPL"] "1Min" (TDatetime (w_start w))
           (TDatetime (w_end w)) (Some 1000%Z) = Ok batch_data
         /\ attr_empty batch_data = Ok true.
Proof.
  assert (Hout : outcome_of (backfill Z Sample.sample_now MoreSamples.fetch_nothing
                               ["AAPL"] "1Min" 1000
                               (DStr "2024-01-01") (DStr "2024-01-10"))
                 = Some (Ok polars_DataFrame)) by (vm_compute; reflexivity).
  split; [exact Hout|]. split; [vm_compute; reflexivity|].
  exact (proj2 (BackfillOutcome.backfill_returns_no_rows Z
                  MoreSamples.fetch_nothing ["AAPL"] "1Min" 1000
                  Sample.sample_now (DStr "2024-01-01") (DStr "2024-01-10")
                  _ Hout)).
Defined.


Lemma backfill_default_windows_witness :
  (31 <= dt_date Sample.sample_now <= MAXORDINAL - 7)%Z
  /\ dt_date Sample.sample_now = ymd2ord 2024 1 15
  /\ windows_of (backfill Z Sample.sample_now Sample.fetch_one_row ["AAPL"]
                   "1Min" 1000 DNone DNone)
     = [window_between (ymd2ord 2023 12 16) (ymd2ord 2023 12 23);
        window_between (ymd2ord 2023 12 24) (ymd2ord 2023 12 31);
        window_between (ymd2ord 2024 1 1) (ymd2ord 2024 1 8);
        window_between (ymd2ord 2024 1 9) (ymd2ord 2024 1 15)].
Proof.
  assert (Hnow : (31 <= dt_date Sample.sample_now <= MAXORDINAL - 7)%Z)
    by (vm_compute; split; discriminate).
  split; [exact Hnow|]. split; [reflexivity|].
  rewrite (BackfillOutcome.backfill_default_windows Z Sample.fetch_one_row
             ["AAPL"] "1Min" 1000 Sample.sample_now Hnow).
  - reflexivity.
  - intros w. exists (Pandas Sample.one_bar), false. split; reflexivity.
Defined.

Lemma get_bars_never_empty_pandas_witness :
  get_bars (Sample.api_always Sample.one_bar) Sample.sample_now ["AAPL"] "1Min"
    TNone TNone None = Ok (Pandas Sample.one_bar)
  /\ get_bars (Sample.api_always Sample.no_bars) Sample.sample_now ["AAPL"]
       "1Min" TNone TNone None = Ok polars_DataFrame
  /\ (Pandas Sample.one_bar = polars_DataFrame
      \/ exists df, Pandas Sample.one_bar = Pandas df /\ pd_empty df = false
                    /\ (0 < pd_nrows df)%nat /\ pd_columns df <> []).
Proof.
  assert (H : get_bars (Sample.api_always Sample.one_bar) Sample.sample_now
                ["AAPL"] "1Min" TNone TNone None = Ok (Pandas Sample.one_bar))
    by reflexivity.
  split; [exact H|]. split; [reflexivity|].
  exact (FetchBarsMore.get_bars_never_empty_pandas Z
           (Sample.api_always Sample.one_bar) Sample.sample_now
           ["AAPL"] "1Min" TNone TNone None _ H).
Defined.

Lemma fetch_bars_returns_only_empty_witness :
  fetch_bars Z (Sample.api_always MoreSamples.bar_with_column) Sample.sample_now
    ["AAPL"] "1Min" TNone TNone None = Ok polars_DataFrame
  /\ exists df bars values,
       get_bars (Sample.api_always MoreSamples.bar_with_column) Sample.sample_now
         ["AAPL"] "1Min" TNone TNone None = Ok (Pandas df)
       /\ pd_reset_index df = Ok bars
       /\ find_column "column" (pd_columns bars) = Some values.
Proof.
  assert (H : fetch_bars Z (Sample.api_always MoreSamples.bar_with_column)
                Sample.sample_now ["AAPL"] "1Min" TNone TNone None
              = Ok polars_DataFrame) by reflexivity.
  split; [exact H|].
  exact (proj2 (FetchBarsMore.fetch_bars_returns_only_empty Z
                  (Sample.api_always MoreSamples.bar_with_column)
                  Sample.sample_now ["AAPL"] "1Min" TNone TNone None _ H)).
Defined.

Lemma format_bars_on_complete_frame_witness :
  (forall name, In name (required_columns) ->
     has_name name (pd_columns MoreSamples.complete_frame) = true)
  /\ exists out,
       format_bars Z Sample.sample_now "1Min" MoreSamples.complete_frame = Ok out
       /\ names (pd_columns out)
          = ["symbol"; "timestamp"; "open"; "high"; "low"; "close";
             "timeframe"; "source"; "fetched_at"]
       /\ pd_nrows out = 2%nat.
Proof.
  assert (H : forall name, In name (required_columns) ->
                has_name name (pd_columns MoreSamples.complete_frame) = true).
  { intros name [<- | [<- | [<- | [<- | [<- | [<- | []]]]]]]; reflexivity. }
  split; [exact H|].
  destruct (FetchBarsMore.format_bars_on_complete_frame Z Sample.sample_now
              "1Min" MoreSamples.complete_frame H)
    as (out & Hout & Hnames & Hrows & _).
  exists out. split; [exact Hout|]. split; [exact Hnames | exact Hrows].
Defined.

Lemma backfill_surfaces_sdk_error_witness :
  (1 <= ymd2ord 2024 1 1)%Z
  /\ (ymd2ord 2024 1 1 <= ymd2ord 2024 1 10)%Z
  /\ (ymd2ord 2024 1 1 + 7 <= MAXORDINAL)%Z
  /\ backfill Z Sample.sample_now
       (fetch_bars Z MoreSamples.api_down Sample.sample_now) ["AAPL"] "1Min"
       1000 (DDate (ymd2ord 2024 1 1)) (DDate (ymd2ord 2024 1 10))
     = ([window_between (ymd2ord 2024 1 1)
           (Z.min (ymd2ord 2024 1 1 + 7) (ymd2ord 2024 1 10))],
        Some (Raise (RemoteError "503"))).
Proof.
  assert (H1 : (1 <= ymd2ord 2024 1 1)%Z) by (vm_compute; discriminate).
  assert (H2 : (ymd2ord 2024 1 1 <= ymd2ord 2024 1 10)%Z)
    by (vm_compute; discriminate).
  assert (H3 : (ymd2ord 2024 1 1 + 7 <= MAXORDINAL)%Z)
    by (vm_compute; discriminate).
  split; [exact H1|]. split; [exact H2|]. split; [exact H3|].
  exact (backfill_surfaces_sdk_error Z MoreSamples.api_down Sample.sample_now
           ["AAPL"] "1Min" 1000 _ _ (RemoteError "503") H1 H2 H3 eq_refl).
Defined.

Lemma tradable_body_criterion_witness :
  isascii (a_symbol (Sample.as_dict (Sample.listed "EDGE" true))) = true
  /\ a_tradable (Sample.as_dict (Sample.listed "EDGE" true)) = true
  /\ isalnum "EDGE" = true
  /\ reaches_thresholds Z Sample.api_by_symbol Sample.sample_now Sample.mean_Z
       Z.geb 5%Z 500000%Z "EDGE"
  /\ tradable_body Z Sample.api_by_symbol Sample.sample_now Sample.mean_Z Z.geb
       5%Z 500000%Z (Sample.as_dict (Sample.listed "EDGE" true)) ["AAPL"]
     = ["AAPL"; "EDGE"].
Proof.
  assert (Hr : reaches_thresholds Z Sample.api_by_symbol Sample.sample_now
                 Sample.mean_Z Z.geb 5%Z 500000%Z "EDGE").
  { eexists _, _, _, _, _. split; [reflexivity|].
    split; [reflexivity|]. split; [reflexivity|]. split; [reflexivity|].
    split; [reflexivity|]. split; reflexivity. }
  split; [reflexivity|]. split; [reflexivity|]. split; [reflexivity|].
  split; [exact Hr|].
  apply (proj2 (TradableMore.tradable_body_criterion Z Sample.api_by_symbol
                  Sample.sample_now Sample.mean_Z Z.geb 5%Z 500000%Z
                  (Sample.as_dict (Sample.listed "EDGE" true)) ["AAPL"])
           eq_refl).
  split; [reflexivity|]. split; [reflexivity | exact Hr].
Defined.

Lemma tradable_body_rejects_symbol_witness :
  a_symbol (Sample.as_dict (Sample.listed "BRK.B" true))
  = String.append "BRK" (String "." "B")
  /\ is_ascii_char "." = true
  /\ is_alnum_char "." = false
  /\ tradable_body Z Sample.api_by_symbol Sample.sample_now Sample.mean_Z Z.geb
       5%Z 500000%Z (Sample.as_dict (Sample.listed "BRK.B" true)) ["AAPL"]
     = ["AAPL"].
Proof.
  split; [reflexivity|]. split; [reflexivity|]. split; [reflexivity|].
  apply (proj2 (TradableMore.tradable_body_rejects_symbol Z Sample.api_by_symbol
                  Sample.sample_now Sample.mean_Z Z.geb 5%Z 500000%Z
                  (Sample.as_dict (Sample.listed "BRK.B" true)) ["AAPL"])
           "BRK" "."%char "B"); reflexivity.
Defined.

Lemma get_tradable_symbols_never_returns_witness :
  Sample.api_assets [Sample.listed "AAPL" true] "active" "us_equity"
  = Ok [Sample.listed "AAPL" true]
  /\ get_tradable_symbols Z Sample.api_by_symbol
       (Sample.api_assets [Sample.listed "AAPL" true]) Sample.sample_now
       Sample.mean_Z Z.geb "active" "us_equity" 5%Z 500000%Z
     = Raise (UnboundLocalError "asset")
  /\ get_tradable_symbols Z Sample.api_by_symbol
       (fun _ _ => Raise (RemoteError "503")) Sample.sample_now
       Sample.mean_Z Z.geb "active" "us_equity" 5%Z 500000%Z
     = Raise (RemoteError "503").
Proof.
  split; [reflexivity|]. split.
  - apply (proj2 (proj2 (TradableMore.get_tradable_symbols_never_returns Z
                           Sample.api_by_symbol
                           (Sample.api_assets [Sample.listed "AAPL" true])
                           Sample.sample_now Sample.mean_Z Z.geb 5%Z 500000%Z
                           "active" "us_equity"))
             [Sample.listed "AAPL" true]).
    reflexivity.
  - apply (proj1 (proj2 (TradableMore.get_tradable_symbols_never_returns Z
                           Sample.api_by_symbol
                           (fun _ _ => Raise (RemoteError "503"))
                           Sample.sample_now Sample.mean_Z Z.geb 5%Z 500000%Z
                           "active" "us_equity"))).
    reflexivity.
Defined.

Lemma credential_precedence_witness :
  Construction.credential (Some "PK-arg") "ALPACA_API_KEY"
    (Construction.load_dotenv MoreSamples.dotenv_file MoreSamples.environ_full)
  = Some "PK-arg"
  /\ Construction.credential (Some "") "ALPACA_API_KEY"
       (Construction.load_dotenv MoreSamples.dotenv_file MoreSamples.environ_full)
     = Some "PK-env"
  /\ Construction.credential None "ALPACA_API_KEY"
       (Construction.load_dotenv MoreSamples.dotenv_file
          MoreSamples.environ_blank_key)
     = Some ""
  /\ Construction.credential None "ALPACA_API_SECRET"
       (Construction.load_dotenv MoreSamples.dotenv_file
          MoreSamples.environ_blank_key)
     = Some "secret-file".
Proof.
  split; [|split; [|split]].
  - apply (proj1 (ConstructionFacts.credential_precedence (Some "PK-arg")
                    "ALPACA_API_KEY" MoreSamples.dotenv_file
                    MoreSamples.environ_full)).
    reflexivity.
  - apply (proj1 (proj2 (ConstructionFacts.credential_precedence (Some "")
                           "ALPACA_API_KEY" MoreSamples.dotenv_file
                           MoreSamples.environ_full)));
      [reflexivity | vm_compute; reflexivity].
  - apply (proj1 (proj2 (ConstructionFacts.credential_precedence None
                           "ALPACA_API_KEY" MoreSamples.dotenv_file
                           MoreSamples.environ_blank_key)));
      [reflexivity | vm_compute; reflexivity].
  - rewrite (proj2 (proj2 (ConstructionFacts.credential_precedence None
                             "ALPACA_API_SECRET" MoreSamples.dotenv_file
                             MoreSamples.environ_blank_key)));
      [vm_compute; reflexivity | reflexivity | vm_compute; reflexivity].
Defined.

Lemma client_init_ok_witness :
  fst (Construction.client_init unit MoreSamples.rest_ok MoreSamples.dotenv_file
         (Some "PK-arg") None None MoreSamples.environ_full)
  = Ok (Construction.mk_client "PK-arg" "secret-env"
          "https://paper-api.alpaca.markets" tt)
  /\ Construction.base_url
       (Construction.mk_client "PK-arg" "secret-env"
          "https://paper-api.alpaca.markets" tt) <> EmptyString.
Proof.
  assert (H : fst (Construction.client_init unit MoreSamples.rest_ok
                     MoreSamples.dotenv_file (Some "PK-arg") None None
                     MoreSamples.environ_full)
              = Ok (Construction.mk_client "PK-arg" "secret-env"
                      "https://paper-api.alpaca.markets" tt))
    by (vm_compute; reflexivity).
  split; [exact H|].
  exact (proj1 (proj2 (proj2 (ConstructionFacts.client_init_ok unit
                                MoreSamples.rest_ok MoreSamples.dotenv_file
                                (Some "PK-arg") None None
                                MoreSamples.environ_full _ H)))).
Defined.

Lemma client_init_missing_witness :
  Construction.truthy
    (Construction.credential None "ALPACA_API_KEY"
       (Construction.load_dotenv MoreSamples.dotenv_file
          MoreSamples.environ_blank_key)) = false
  /\ fst (Construction.client_init unit MoreSamples.rest_ok
            MoreSamples.dotenv_file None None None MoreSamples.environ_blank_key)
     = Raise Construction.credentials_missing.
Proof.
  assert (H : Construction.truthy
                (Construction.credential None "ALPACA_API_KEY"
                   (Construction.load_dotenv MoreSamples.dotenv_file
                      MoreSamples.environ_blank_key)) = false)
    by (vm_compute; reflexivity).
  split; [exact H|].
  rewrite (ConstructionFacts.client_init_missing unit MoreSamples.rest_ok
             MoreSamples.dotenv_file None None None
             MoreSamples.environ_blank_key (or_introl H)).
  reflexivity.
Defined.

(** With a key in the connector's file and all three credentials in the
    client's file, the connector's client holds the key of the connector's
    file; the client constructed on its own holds the key of its own. *)
Lemma connector_init_files_witness :
  fst (Construction.connector_init unit MoreSamples.rest_ok
         MoreSamples.dotenv_file MoreSamples.dotenv_by_connector
         None None None ∅)
  = Ok (Construction.mk_client "PK-connector-file" "secret-file"
          "https://api.alpaca.markets" tt)
  /\ fst (Construction.client_init unit MoreSamples.rest_ok
            MoreSamples.dotenv_file None None None ∅)
     = Ok (Construction.mk_client "PK-file" "secret-file"
             "https://api.alpaca.markets" tt)
  /\ Construction.credential None "ALPACA_API_KEY"
       (snd (Construction.connector_init unit MoreSamples.rest_ok
               MoreSamples.dotenv_file MoreSamples.dotenv_by_connector
               None None None ∅))
     = Some "PK-connector-file"
  /\ Construction.credential None "ALPACA_API_SECRET"
       (snd (Construction.connector_init unit MoreSamples.rest_ok
               MoreSamples.dotenv_file MoreSamples.dotenv_by_connector
               None None None ∅))
     = Some "secret-file".
Proof.
  destruct (ConstructionFacts.connector_init_files unit MoreSamples.rest_ok
              MoreSamples.dotenv_file MoreSamples.dotenv_by_connector
              None None None ∅) as (Hone & _ & Hcred & _).
  split; [rewrite Hone; vm_compute; reflexivity|].
  split; [vm_compute; reflexivity|].
  split.
  - rewrite (Hcred None "ALPACA_API_KEY" eq_refl (lookup_empty _)).
    vm_compute. reflexivity.
  - rewrite (Hcred None "ALPACA_API_SECRET" eq_refl (lookup_empty _)).
    vm_compute. reflexivity.
Defined.

(** Two symbols are subscribed in order; with [DOWN] in second place the
    loop raises after [AAPL] was subscribed, and [MSFT] is not tried. *)
Lemma subscribe_all_in_order_witness :
  Streaming.subscribe_all (string * list string) MoreSamples.subscribe
    ["AAPL"; "MSFT"] (Streaming.PAPER_URL, [])
  = Ok (Streaming.PAPER_URL, ["AAPL"; "MSFT"])
  /\ Streaming.subscribe_all (string * list string) MoreSamples.subscribe
       ["AAPL"] (Streaming.PAPER_URL, [])
     = Ok (Streaming.PAPER_URL, ["AAPL"])
  /\ MoreSamples.subscribe (Streaming.PAPER_URL, ["AAPL"]) "DOWN"
     = Raise (RemoteError "503")
  /\ Streaming.subscribe_all (string * list string) MoreSamples.subscribe
       ["AAPL"; "DOWN"; "MSFT"] (Streaming.PAPER_URL, [])
     = Raise (RemoteError "503").
Proof.
  assert (H1 : Streaming.subscribe_all (string * list string)
                 MoreSamples.subscribe ["AAPL"] (Streaming.PAPER_URL, [])
               = Ok (Streaming.PAPER_URL, ["AAPL"])).
  { rewrite (proj1 (proj2 (StreamingFacts.subscribe_all_in_order
                             (string * list string) MoreSamples.subscribe
                             [] (Streaming.PAPER_URL, []))) "AAPL").
    reflexivity. }
  assert (H2 : MoreSamples.subscribe (Streaming.PAPER_URL, ["AAPL"]) "DOWN"
               = Raise (RemoteError "503")) by reflexivity.
  split.
  { change ["AAPL"; "MSFT"] with (["AAPL"] ++ ["MSFT"]).
    rewrite (proj1 (proj2 (proj2 (StreamingFacts.subscribe_all_in_order
                                    (string * list string) MoreSamples.subscribe
                                    [] (Streaming.PAPER_URL, []))))
               ["AAPL"] ["MSFT"]).
    rewrite H1. cbn [bind].
    rewrite (proj1 (proj2 (StreamingFacts.subscribe_all_in_order
                             (string * list string) MoreSamples.subscribe
                             [] (Streaming.PAPER_URL, ["AAPL"]))) "MSFT").
    reflexivity. }
  split; [exact H1|]. split; [exact H2|].
  apply (proj2 (proj2 (proj2 (StreamingFacts.subscribe_all_in_order
                                (string * list string) MoreSamples.subscribe
                                ["AAPL"; "DOWN"; "MSFT"]
                                (Streaming.PAPER_URL, []))))
           (RemoteError "503")).
  exists ["AAPL"], "DOWN", ["MSFT"], (Streaming.PAPER_URL, ["AAPL"]).
  split; [reflexivity|]. split; [exact H1 | exact H2].
Defined.

Lemma setup_streaming_endpoint_witness :
  (exists pre post,
     Construction.base_url MoreSamples.paper_client
     = String.append pre (String.append "paper" post))
  /\ Streaming.setup_streaming unit (string * list string)
       MoreSamples.open_stream MoreSamples.subscribe MoreSamples.paper_client
       ["AAPL"; "MSFT"]
     = Ok (Streaming.PAPER_URL, ["AAPL"; "MSFT"])
  /\ ~ (exists pre post,
          Construction.base_url MoreSamples.live_client
          = String.append pre (String.append "paper" post))
  /\ Streaming.setup_streaming unit (string * list string)
       MoreSamples.open_stream MoreSamples.subscribe MoreSamples.live_client
       ["AAPL"; "DOWN"; "MSFT"]
     = Raise (RemoteError "503").
Proof.
  assert (Hp : exists pre post,
             Construction.base_url MoreSamples.paper_client
             = String.append pre (String.append "paper" post)).
  { exists "https://", "-api.alpaca.markets". reflexivity. }
  assert (Hl : ~ (exists pre post,
                    Construction.base_url MoreSamples.live_client
                    = String.append pre (String.append "paper" post))).
  { intros H. apply StreamingFacts.contains_substring in H. discriminate H. }
  split; [exact Hp|]. split.
  - rewrite (proj1 (StreamingFacts.setup_streaming_endpoint unit
                      (string * list string) MoreSamples.open_stream
                      MoreSamples.subscribe MoreSamples.paper_client
                      ["AAPL"; "MSFT"]) Hp).
    reflexivity.
  - split; [exact Hl|].
    rewrite (proj2 (StreamingFacts.setup_streaming_endpoint unit
                      (string * list string) MoreSamples.open_stream
                      MoreSamples.subscribe MoreSamples.live_client
                      ["AAPL"; "DOWN"; "MSFT"]) Hl).
    reflexivity.
Defined.
